(** * Security alert pipeline: deduplication, behavioural analysis, dispatch

    A shallow embedding of [scripts/lib/alerts/alert-engine.py] and
    [scripts/lib/alerts/notification-dispatcher.py], followed by the
    properties of the alert pipeline that hold (or fail) on it.

    Conventions.
    - A [datetime] is a [Z]: microseconds on the naive local time line,
      which is what [datetime.now()] produces.
    - Python exceptions are explicit: a fallible function returns an
      [outcome], and a function that mutates an object returns the new
      object next to its outcome, also when it raises.
    - Library functions whose text is not part of the repository
      ([datetime.fromisoformat], [datetime.isoformat], [repr],
      [str(timedelta)]) are the fields of the class [PyRuntime]; every
      definition and theorem is parametric in it.  [hashlib.md5] is
      implemented in full (module [Md5]).
    - Input and output (HTTP, SMTP, files, the console, the clock) go through
      oracles; what the code did is recorded as a list of [event]s.
    - A record keeps the fields that a decision of the code reads; the
      fields that only reach a formatted message (SMTP host, colours, log
      rotation sizes, HTTP headers) are left out. *)

From Stdlib Require Import ZArith QArith_base Qreduction Lia Bool Ascii String List Sorted.
From stdpp Require Import base option list sorting gmap strings pretty.

Set Warnings "-register-all".

#[local] Open Scope string_scope.
#[local] Open Scope list_scope.
#[local] Open Scope Z_scope.

(* ===================================================================== *)
(** ** hashlib.md5 (RFC 1321) on byte strings *)
(* ===================================================================== *)

Module Md5.

Definition mask32 : Z := 4294967295.
Definition add32 (x y : Z) : Z := Z.land (x + y) mask32.
Definition not32 (x : Z) : Z := Z.lxor x mask32.
Definition rotl32 (x s : Z) : Z :=
  Z.lor (Z.land (Z.shiftl x s) mask32) (Z.shiftr x (32 - s)).

Definition K : list Z :=
  [ 3614090360; 3905402710; 606105819; 3250441966;
    4118548399; 1200080426; 2821735955; 4249261313;
    1770035416; 2336552879; 4294925233; 2304563134;
    1804603682; 4254626195; 2792965006; 1236535329;
    4129170786; 3225465664; 643717713; 3921069994;
    3593408605; 38016083; 3634488961; 3889429448;
    568446438; 3275163606; 4107603335; 1163531501;
    2850285829; 4243563512; 1735328473; 2368359562;
    4294588738; 2272392833; 1839030562; 4259657740;
    2763975236; 1272893353; 4139469664; 3200236656;
    681279174; 3936430074; 3572445317; 76029189;
    3654602809; 3873151461; 530742520; 3299628645;
    4096336452; 1126891415; 2878612391; 4237533241;
    1700485571; 2399980690; 4293915773; 2240044497;
    1873313359; 4264355552; 2734768916; 1309151649;
    4149444226; 3174756917; 718787259; 3951481745 ].

Definition S : list Z :=
  [ 7; 12; 17; 22; 7; 12; 17; 22; 7; 12; 17; 22; 7; 12; 17; 22;
    5; 9; 14; 20; 5; 9; 14; 20; 5; 9; 14; 20; 5; 9; 14; 20;
    4; 11; 16; 23; 4; 11; 16; 23; 4; 11; 16; 23; 4; 11; 16; 23;
    6; 10; 15; 21; 6; 10; 15; 21; 6; 10; 15; 21; 6; 10; 15; 21 ].

Definition bytes_of_string (s : string) : list Z :=
  map (fun c => Z.of_N (N_of_ascii c)) (list_ascii_of_string s).

(** [n] bytes of [x], least significant first. *)
Fixpoint le_bytes (n : nat) (x : Z) : list Z :=
  match n with
  | O => []
  | Datatypes.S n' => Z.land x 255 :: le_bytes n' (Z.shiftr x 8)
  end.

Definition pad (msg : list Z) : list Z :=
  let len := Z.of_nat (length msg) in
  let zeros := Z.to_nat ((55 - len) mod 64) in
  msg ++ [128] ++ repeat 0 zeros ++ le_bytes 8 (Z.land (8 * len) 18446744073709551615).

Fixpoint word_le (bs : list Z) : Z :=
  match bs with
  | [] => 0
  | b :: bs' => b + 256 * word_le bs'
  end.

Fixpoint words (n : nat) (bs : list Z) : list Z :=
  match n with
  | O => []
  | Datatypes.S n' => word_le (firstn 4 bs) :: words n' (skipn 4 bs)
  end.

Definition round (M : list Z) (st : Z * Z * Z * Z) (i : Z) : Z * Z * Z * Z :=
  let '(a, b, c, d) := st in
  let '(f, g) :=
    if i <? 16 then (Z.lor (Z.land b c) (Z.land (not32 b) d), i)
    else if i <? 32 then (Z.lor (Z.land d b) (Z.land (not32 d) c), (5 * i + 1) mod 16)
    else if i <? 48 then (Z.lxor (Z.lxor b c) d, (3 * i + 5) mod 16)
    else (Z.lxor c (Z.lor b (not32 d)), (7 * i) mod 16) in
  let f' := add32 (add32 (add32 f a) (nth (Z.to_nat i) K 0)) (nth (Z.to_nat g) M 0) in
  (d, add32 b (rotl32 f' (nth (Z.to_nat i) S 0)), b, c).

Definition block (st : Z * Z * Z * Z) (chunk : list Z) : Z * Z * Z * Z :=
  let M := words 16 chunk in
  let '(a0, b0, c0, d0) := st in
  let '(a, b, c, d) := fold_left (round M) (map Z.of_nat (seq 0 64)) st in
  (add32 a0 a, add32 b0 b, add32 c0 c, add32 d0 d).

Fixpoint blocks (n : nat) (st : Z * Z * Z * Z) (bs : list Z) : Z * Z * Z * Z :=
  match n with
  | O => st
  | Datatypes.S n' => blocks n' (block st (firstn 64 bs)) (skipn 64 bs)
  end.

Definition digest (msg : list Z) : list Z :=
  let p := pad msg in
  let '(a, b, c, d) :=
    blocks (length p / 64) (1732584193, 4023233417, 2562383102, 271733878) p in
  le_bytes 4 a ++ le_bytes 4 b ++ le_bytes 4 c ++ le_bytes 4 d.

Definition hex_digit (n : Z) : ascii :=
  nth (Z.to_nat n)
      (list_ascii_of_string "0123456789abcdef") "0"%char.

Fixpoint hex (bs : list Z) : string :=
  match bs with
  | [] => EmptyString
  | b :: bs' => String (hex_digit (b / 16)) (String (hex_digit (b mod 16)) (hex bs'))
  end.

(** [hashlib.md5(s.encode()).hexdigest()]; a [string] holds the encoded
    bytes. *)
Definition hexdigest (s : string) : string := hex (digest (bytes_of_string s)).

End Md5.

(* ===================================================================== *)
(** ** Python values, exceptions, records of the log stream *)
(* ===================================================================== *)

(** A value decoded from a JSON log line, or stored in an alert's context.
    A float is carried as the rational it stands for. *)
Inductive pyval :=
| PNone
| PBool (b : bool)
| PInt (n : Z)
| PFloat (q : Q)
| PStr (s : string)
| PList (l : list pyval)
| PDict (d : list (string * pyval)).

(** A [dict] with string keys, in insertion order. *)
Abbreviation pydict := (list (string * pyval)).

(** [bool(v)] *)
Definition truthy (v : pyval) : bool :=
  match v with
  | PNone => false
  | PBool b => b
  | PInt n => negb (n =? 0)
  | PFloat q => negb (Qnum q =? 0)
  | PStr s => match s with EmptyString => false | _ => true end
  | PList l => match l with [] => false | _ => true end
  | PDict d => match d with [] => false | _ => true end
  end.

(** [d.get(k)] *)
Fixpoint dict_lookup (d : pydict) (k : string) : option pyval :=
  match d with
  | [] => None
  | (k', v) :: d' => if String.eqb k' k then Some v else dict_lookup d' k
  end.

(** [d.get(k, dflt)] *)
Definition dict_get (d : pydict) (k : string) (dflt : pyval) : pyval :=
  default dflt (dict_lookup d k).

(** [d[k] = v]: an existing key keeps its position. *)
Fixpoint dict_set (d : pydict) (k : string) (v : pyval) : pydict :=
  match d with
  | [] => [(k, v)]
  | (k', v') :: d' =>
      if String.eqb k' k then (k, v) :: d' else (k', v') :: dict_set d' k v
  end.

Inductive exn :=
| ValueError
| TypeError
| AttributeError
| TemplateError   (* KeyError, IndexError, ValueError or JSONDecodeError of
                     [str.format] and [json.loads] on a payload template *)
| OSError.

Inductive outcome (A : Type) :=
| Ret (a : A)
| Raise (e : exn).
Arguments Ret {A} a.
Arguments Raise {A} e.

(** The library functions the code calls and the repository does not
    define.  [fromisoformat s = None] stands for the [ValueError] of
    [datetime.fromisoformat]. *)
Class PyRuntime := {
  fromisoformat : string -> option Z;
  isoformat : Z -> string;
  py_repr : pyval -> string;
  timedelta_str : Z -> string
}.

Section Values.
Context `{PyRuntime}.

(** [str(v)], which an f-string applies too *)
Definition py_str (v : pyval) : string :=
  match v with
  | PStr s => s
  | PInt n => pretty n
  | PBool true => "True"
  | PBool false => "False"
  | PNone => "None"
  | _ => py_repr v
  end.

(** [datetime.fromisoformat(v)] on whatever an alert or a record carries
    as its timestamp. *)
Definition parse_timestamp (v : pyval) : outcome Z :=
  match v with
  | PStr s =>
      match fromisoformat s with
      | Some t => Ret t
      | None => Raise ValueError
      end
  | _ => Raise TypeError
  end.
End Values.

(** [timedelta(minutes=m)] and [timedelta(hours=h)] in microseconds *)
Definition minutes (m : Z) : Z := m * 60000000.
Definition hours (h : Z) : Z := h * 3600000000.

(** The two clocks.  Every call of [datetime.now()] or [time.time()] takes
    the next reading: the [n]-th call of a run reads position [n]. *)
Record clock := {
  datetime_now : nat -> Z;   (* microseconds *)
  time_time : nat -> Z       (* [int(time.time())], seconds *)
}.

Module Alert.
Record t := mk {
  alert_id : string;
  rule_name : string;
  severity : string;
  description : string;
  category : string;
  timestamp : pyval;
  session_id : pyval;
  context : pydict;
  raw_log : pydict;
  escalation_count : Z
}.

(** [getattr(alert, field)] for the fields of the dataclass; [None] when
    [hasattr] is false.  The attributes that every Python object has
    ([__class__], [__eq__], ...) are not fields of a deduplication key and
    are read as absent. *)
Definition getattr (a : t) (field : string) : option pyval :=
  if String.eqb field "alert_id" then Some (PStr (alert_id a))
  else if String.eqb field "rule_name" then Some (PStr (rule_name a))
  else if String.eqb field "severity" then Some (PStr (severity a))
  else if String.eqb field "description" then Some (PStr (description a))
  else if String.eqb field "category" then Some (PStr (category a))
  else if String.eqb field "timestamp" then Some (timestamp a)
  else if String.eqb field "session_id" then Some (session_id a)
  else if String.eqb field "context" then Some (PDict (context a))
  else if String.eqb field "raw_log" then Some (PDict (raw_log a))
  else if String.eqb field "escalation_count" then Some (PInt (escalation_count a))
  else None.
End Alert.

Module AlertRule.
(** [compiled_pattern] is the compiled matcher as the engine uses it:
    [compiled_pattern.search(json.dumps(log_entry, default=str))]. *)
Record t := mk {
  name : string;
  enabled : bool;
  severity : string;
  pattern : option string;
  description : string;
  category : string;
  response : pydict;
  context_fields : list string;
  compiled_pattern : option (pydict -> bool);
  threshold : option pydict
}.
End AlertRule.

(* ===================================================================== *)
(** ** What the code does to the outside world *)
(* ===================================================================== *)

Inductive channel := Console | LogFile | Email | Webhook | Grafana.

Inductive log_msg :=
| LokiQueryFailed
| LokiHealthCheckFailed
| TooManyConsecutiveErrors (n : Z)
| ErrorProcessingLogs
| AlertSent
| FailedToSendAlert
| ProcessedAlerts (total sent : Z)
| ConsoleNotificationFailed
| LogFileNotificationFailed
| EmailSent
| EmailNotificationFailed
| WebhookSent
| WebhookAttemptFailed (attempt : Z)
| WebhookGaveUp (attempts : Z)
| GrafanaAnnotationCreated
| GrafanaNotificationFailed
| NotificationHandlerFailed
| AllHandlersFailed
| SomeHandlersFailed (succeeded total : nat).

Inductive event :=
| LokiReady                         (* GET /ready *)
| LokiQueryRange (start stop : Z)   (* GET /loki/api/v1/query_range *)
| HandlerCalled (c : channel)       (* the dispatcher calls [handler.send] *)
| ConsolePrinted
| FallbackPrinted
| FileAppended
| SmtpSent
| HttpRequest (attempt : Z)         (* the webhook's [requests.request] *)
| Slept (seconds : Z)               (* [time.sleep] *)
| GrafanaPosted
| LogInfo (m : log_msg)
| LogWarning (m : log_msg)
| LogError (m : log_msg).

(** What [requests] gives back: a response with its status code, or a
    [requests.RequestException] (connection error, timeout). *)
Inductive http_result :=
| Status (code : Z)
| RequestException.

(** [response.raise_for_status()] raises [HTTPError], a
    [RequestException], for the codes 400 to 599 and for no other. *)
Definition raises_for_status (code : Z) : bool := (400 <=? code) && (code <? 600).

(** The request went through and [raise_for_status] let it pass. *)
Definition http_ok (r : http_result) : bool :=
  match r with
  | Status code => negb (raises_for_status code)
  | RequestException => false
  end.

(* ===================================================================== *)
(** ** alert-engine.py: AlertDeduplicator *)
(* ===================================================================== *)

Module AlertDeduplicator.
Record t := mk {
  enabled : bool;
  window_minutes : Z;
  key_fields : list string;
  max_occurrences : Z;
  alert_history : gmap string (list Z)   (* defaultdict(deque) *)
}.

Definition set_history (d : t) (key : string) (h : list Z) : t :=
  mk (enabled d) (window_minutes d) (key_fields d) (max_occurrences d)
     (<[key := h]> (alert_history d)).

(** [while history and history[0] < cutoff_time: history.popleft()] *)
Fixpoint clean_old (cutoff_time : Z) (history : list Z) : list Z :=
  match history with
  | [] => []
  | t0 :: rest => if t0 <? cutoff_time then clean_old cutoff_time rest else history
  end.

Section Methods.
Context `{PyRuntime}.

Definition key_values (d : t) (alert : Alert.t) : list string :=
  omap (fun field =>
          match Alert.getattr alert field with
          | Some v => Some (py_str v)
          | None => py_str <$> dict_lookup (Alert.context alert) field
          end)
       (key_fields d).

Definition dedup_key (d : t) (alert : Alert.t) : string :=
  String.concat "|" (key_values d alert).

Definition should_alert (d : t) (alert : Alert.t) : outcome bool * t :=
  if negb (enabled d) then (Ret true, d)
  else
    let key := dedup_key d alert in
    match parse_timestamp (Alert.timestamp alert) with
    | Raise e => (Raise e, d)
    | Ret now =>
        let cutoff_time := now - minutes (window_minutes d) in
        let history :=
          clean_old cutoff_time (default [] (alert_history d !! key)) in
        if max_occurrences d <=? Z.of_nat (length history)
        then (Ret false, set_history d key history)
        else (Ret true, set_history d key (history ++ [now]))
    end.
End Methods.
End AlertDeduplicator.

(* ===================================================================== *)
(** ** alert-engine.py: BehavioralAnalyzer *)
(* ===================================================================== *)

(** A hashable value as a dictionary key: [True], [1] and [1.0] are one
    key.  Lists and dicts are unhashable. *)
Inductive pykey :=
| KNone
| KInt (n : Z)
| KFloat (num : Z) (den : positive)
| KStr (s : string).

#[global] Instance pykey_eq_dec : EqDecision pykey.
Proof. solve_decision. Defined.

#[global] Instance pykey_countable : Countable pykey.
Proof.
  refine (inj_countable'
    (fun k => match k with
              | KNone => inl ()
              | KInt n => inr (inl n)
              | KFloat n d => inr (inr (inl (n, d)))
              | KStr s => inr (inr (inr s))
              end)
    (fun x => match x with
              | inl () => KNone
              | inr (inl n) => KInt n
              | inr (inr (inl (n, d))) => KFloat n d
              | inr (inr (inr s)) => KStr s
              end) _).
  intros []; reflexivity.
Defined.

Definition hash_key (v : pyval) : option pykey :=
  match v with
  | PNone => Some KNone
  | PBool b => Some (KInt (if b then 1 else 0))
  | PInt n => Some (KInt n)
  | PFloat q =>
      let r := Qred q in
      Some (if (Qden r =? 1)%positive then KInt (Qnum r) else KFloat (Qnum r) (Qden r))
  | PStr s => Some (KStr s)
  | PList _ | PDict _ => None
  end.

Module BehavioralAnalyzer.
Record stats := mk_stats {
  operations : list Z;
  scope_violations : Z;
  start_time : option Z
}.

(** the [defaultdict] factory *)
Definition new_stats : stats := mk_stats [] 0 None.

Record t := mk {
  session_stats : gmap pykey stats
}.

Definition store (ba : t) (k : pykey) (s : stats) : t :=
  mk (<[k := s]> (session_stats ba)).

Section Methods.
Context `{PyRuntime}.

Definition _generate_alert_id (rule_type : string) (session_id : pyval)
    (time_now : Z) : string :=
  let content := rule_type +:+ "_" +:+ py_str session_id +:+ "_" +:+ pretty time_now in
  String.substring 0 12 (Md5.hexdigest content).

(** The resolution of the record's timestamp, lines 177 to 184: the
    parsed value, or a reading of the clock. *)
Definition entry_timestamp (clk : clock) (log_entry : pydict) (tick : nat)
    : outcome Z * nat :=
  let timestamp_str := dict_get log_entry "timestamp" (PStr "") in
  if negb (truthy timestamp_str) then (Ret (datetime_now clk tick), S tick)
  else
    match timestamp_str with
    | PStr s =>
        match fromisoformat s with
        | Some t => (Ret t, tick)
        | None => (Ret (datetime_now clk tick), S tick)   (* except ValueError *)
        end
    | _ => (Raise TypeError, tick)
    end.

Definition high_frequency_alert (alert_id : string) (timestamp : Z)
    (session_id : pyval) (recent : nat) (log_entry : pydict) : Alert.t :=
  Alert.mk alert_id "high_frequency_operations" "MEDIUM"
    "Unusually high frequency of operations detected" "behavioral_anomaly"
    (PStr (isoformat timestamp)) session_id
    [ ("operation_count", PInt (Z.of_nat recent));
      ("time_window", PStr "5 minutes");
      ("operations_per_minute", PFloat (Qmake (Z.of_nat recent) 5)) ]
    log_entry 0.

Definition repeated_scope_alert (alert_id : string) (timestamp : Z)
    (session_id : pyval) (violations : Z) (started : Z) (log_entry : pydict)
    : Alert.t :=
  Alert.mk alert_id "repeated_scope_violations" "HIGH"
    "Multiple scope violations in session" "behavioral_anomaly"
    (PStr (isoformat timestamp)) session_id
    [ ("violation_count", PInt violations);
      ("session_duration", PStr (timedelta_str (timestamp - started))) ]
    log_entry 0.

Definition analyze_session (clk : clock) (ba : t) (session_id : pyval)
    (log_entry : pydict) (tick : nat) : outcome (list Alert.t) * t * nat :=
  match hash_key session_id with
  | None => (Raise TypeError, ba, tick)
  | Some k =>
      let st := default new_stats (session_stats ba !! k) in
      match entry_timestamp clk log_entry tick with
      | (Raise e, tick1) => (Raise e, store ba k st, tick1)
      | (Ret timestamp, tick1) =>
          let started := default timestamp (start_time st) in
          let ops := operations st ++ [timestamp] in
          let cutoff := timestamp - hours 1 in
          let ops := List.filter (fun ts => cutoff <? ts) ops in
          let recent_ops :=
            List.filter (fun ts => timestamp - minutes 5 <? ts) ops in
          let '(alerts, tick2) :=
            if (20 <? length recent_ops)%nat
            then ([high_frequency_alert
                     (_generate_alert_id "high_frequency" session_id
                                         (time_time clk tick1))
                     timestamp session_id (length recent_ops) log_entry],
                  S tick1)
            else ([], tick1) in
          match dict_get log_entry "action_details" (PDict []) with
          | PDict action_details =>
              if truthy (dict_get action_details "outside_project_scope" PNone)
              then
                let violations := scope_violations st + 1 in
                let st' := mk_stats ops violations (Some started) in
                if 3 <=? violations
                then (Ret (alerts ++
                             [repeated_scope_alert
                                (_generate_alert_id "repeated_scope" session_id
                                                    (time_time clk tick2))
                                timestamp session_id violations started log_entry]),
                      store ba k st', S tick2)
                else (Ret alerts, store ba k st', tick2)
              else (Ret alerts,
                    store ba k (mk_stats ops (scope_violations st) (Some started)),
                    tick2)
          | _ =>
              (Raise AttributeError,
               store ba k (mk_stats ops (scope_violations st) (Some started)),
               tick2)
          end
      end
  end.
End Methods.
End BehavioralAnalyzer.

(* ===================================================================== *)
(** ** notification-dispatcher.py *)
(* ===================================================================== *)

(** What the outside world answers during one [send_alert] call. *)
Record delivery_io := {
  console_prints : bool;             (* [print] returns *)
  logfile_writes : bool;             (* rotation, [open], [write], [flush] return *)
  smtp_delivers : bool;              (* the message is rendered and SMTP takes it *)
  payload_renders : bool;            (* [payload_template.format] and [json.loads] return *)
  webhook_replies : nat -> http_result;   (* the answer to the n-th attempt *)
  grafana_reply : http_result
}.

Module ConsoleNotifier.
Record config := mk_config {
  cfg_enabled : option bool;
  cfg_min_severity : option string;
  cfg_format : option string;
  cfg_colors : option bool
}.

Record t := mk {
  enabled : bool;
  min_severity : string;
  format : string;
  colors : bool
}.

Definition init (c : config) : t :=
  mk (default true (cfg_enabled c)) (default "MEDIUM" (cfg_min_severity c))
     (default "text" (cfg_format c)) (default true (cfg_colors c)).

(** [self.severity_levels.get(severity)] *)
Definition severity_levels (severity : string) : option Z :=
  if String.eqb severity "CRITICAL" then Some 4
  else if String.eqb severity "HIGH" then Some 3
  else if String.eqb severity "MEDIUM" then Some 2
  else if String.eqb severity "LOW" then Some 1
  else None.

Definition should_notify (n : t) (severity : string) : bool :=
  if negb (enabled n) then false
  else
    let current_level := default 0 (severity_levels severity) in
    let min_level := default 2 (severity_levels (min_severity n)) in
    min_level <=? current_level.

Section Methods.
Context `{PyRuntime}.

Definition send (n : t) (alert : Alert.t) (io : delivery_io)
    : outcome bool * list event :=
  if negb (should_notify n (Alert.severity alert)) then (Ret true, [])
  else
    let printed :=
      if console_prints io then (Ret true, [ConsolePrinted])
      else (Ret false, [LogError ConsoleNotificationFailed]) in
    if String.eqb (format n) "json" then printed
    else
      match parse_timestamp (Alert.timestamp alert) with
      | Raise _ => (Ret false, [LogError ConsoleNotificationFailed])
      | Ret _ => printed
      end.
End Methods.
End ConsoleNotifier.

Module LogFileNotifier.
Record config := mk_config {
  cfg_enabled : option bool;
  cfg_path : option string;
  cfg_format : option string
}.

Record t := mk {
  enabled : bool;
  log_path : string;
  format : string
}.

Definition init (c : config) : t :=
  mk (default true (cfg_enabled c))
     (default "data/alerts/security-alerts.log" (cfg_path c))
     (default "json" (cfg_format c)).

Definition send (n : t) (alert : Alert.t) (io : delivery_io)
    : outcome bool * list event :=
  if negb (enabled n) then (Ret true, [])
  else if logfile_writes io then (Ret true, [FileAppended])
  else (Ret false, [LogError LogFileNotificationFailed]).
End LogFileNotifier.

Module EmailNotifier.
Record config := mk_config {
  cfg_enabled : option bool;
  cfg_recipients : option (list (string * list string))
}.

Record t := mk {
  enabled : bool;
  recipients : list (string * list string)   (* severity, or "default" *)
}.

Definition init (c : config) : t :=
  mk (default false (cfg_enabled c)) (default [] (cfg_recipients c)).

Fixpoint lookup (d : list (string * list string)) (k : string)
    : option (list string) :=
  match d with
  | [] => None
  | (k', v) :: d' => if String.eqb k' k then Some v else lookup d' k
  end.

Definition _get_recipients (n : t) (severity : string) : list string :=
  match lookup (recipients n) severity with
  | Some l => l
  | None => default [] (lookup (recipients n) "default")
  end.

Section Methods.
Context `{PyRuntime}.

Definition send (n : t) (alert : Alert.t) (io : delivery_io)
    : outcome bool * list event :=
  if negb (enabled n) then (Ret true, [])
  else
    match _get_recipients n (Alert.severity alert) with
    | [] => (Ret true, [])
    | _ :: _ =>
        (* [_create_email_body] parses the alert's timestamp *)
        match parse_timestamp (Alert.timestamp alert) with
        | Raise _ => (Ret false, [LogError EmailNotificationFailed])
        | Ret _ =>
            if smtp_delivers io then (Ret true, [SmtpSent; LogInfo EmailSent])
            else (Ret false, [LogError EmailNotificationFailed])
        end
    end.
End Methods.
End EmailNotifier.

Module WebhookNotifier.
Record config := mk_config {
  cfg_enabled : option bool;
  cfg_url : option string;
  cfg_retry_attempts : option Z;
  cfg_payload_template : option string
}.

Record t := mk {
  enabled : bool;
  url : string;
  retry_attempts : Z;
  payload_template : string
}.

Definition init (c : config) : t :=
  mk (default false (cfg_enabled c)) (default "" (cfg_url c))
     (default 3 (cfg_retry_attempts c)) (default "" (cfg_payload_template c)).

(** [for attempt in range(self.retry_attempts)], at [attempt] with
    [remaining] iterations to go, and the two lines after the loop. *)
Fixpoint attempts (n : t) (io : delivery_io) (remaining : nat) (attempt : Z)
    : bool * list event :=
  match remaining with
  | O => (false, [LogError (WebhookGaveUp (retry_attempts n))])
  | S remaining' =>
      if http_ok (webhook_replies io (Z.to_nat attempt))
      then (true, [HttpRequest attempt; LogInfo WebhookSent])
      else
        let backoff :=
          if attempt <? retry_attempts n - 1 then [Slept (2 ^ attempt)] else [] in
        let '(sent, evs) := attempts n io remaining' (attempt + 1) in
        (sent,
         HttpRequest attempt :: LogWarning (WebhookAttemptFailed (attempt + 1))
           :: backoff ++ evs)
  end.

Definition send (n : t) (alert : Alert.t) (io : delivery_io)
    : outcome bool * list event :=
  if negb (enabled n) || String.eqb (url n) "" then (Ret true, [])
  else if negb (String.eqb (payload_template n) "") && negb (payload_renders io)
  then (Raise TemplateError, [])        (* [_create_payload], outside the [try] *)
  else
    let '(sent, evs) := attempts n io (Z.to_nat (retry_attempts n)) 0 in
    (Ret sent, evs).
End WebhookNotifier.

Module GrafanaNotifier.
Record config := mk_config {
  cfg_enabled : option bool;
  cfg_api_key : option string
}.

Record t := mk {
  enabled : bool;
  api_key : string
}.

Definition init (c : config) : t :=
  mk (default true (cfg_enabled c)) (default "" (cfg_api_key c)).

Section Methods.
Context `{PyRuntime}.

Definition send (n : t) (alert : Alert.t) (io : delivery_io)
    : outcome bool * list event :=
  if negb (enabled n) then (Ret true, [])
  else
    match parse_timestamp (Alert.timestamp alert) with
    | Raise _ => (Ret false, [LogWarning GrafanaNotificationFailed])
    | Ret _ =>
        if String.eqb (api_key n) ""
        then (Ret true, [LogInfo GrafanaAnnotationCreated])
        else if http_ok (grafana_reply io)
        then (Ret true, [GrafanaPosted; LogInfo GrafanaAnnotationCreated])
        else (Ret false, [GrafanaPosted; LogWarning GrafanaNotificationFailed])
    end.
End Methods.
End GrafanaNotifier.

Module NotificationDispatcher.
(** the [notifications] section of the configuration: a channel is
    present or not *)
Record config := mk_config {
  console : option ConsoleNotifier.config;
  logfile : option LogFileNotifier.config;
  email : option EmailNotifier.config;
  webhook : option WebhookNotifier.config;
  grafana : option GrafanaNotifier.config
}.

Inductive handler :=
| ConsoleHandler (n : ConsoleNotifier.t)
| LogFileHandler (n : LogFileNotifier.t)
| EmailHandler (n : EmailNotifier.t)
| WebhookHandler (n : WebhookNotifier.t)
| GrafanaHandler (n : GrafanaNotifier.t).

Definition channel_of (h : handler) : channel :=
  match h with
  | ConsoleHandler _ => Console
  | LogFileHandler _ => LogFile
  | EmailHandler _ => Email
  | WebhookHandler _ => Webhook
  | GrafanaHandler _ => Grafana
  end.

Record t := mk {
  handlers : list handler
}.

Definition init (c : config) : t :=
  mk (option_list (ConsoleHandler <$> (ConsoleNotifier.init <$> console c))
      ++ option_list (LogFileHandler <$> (LogFileNotifier.init <$> logfile c))
      ++ option_list (EmailHandler <$> (EmailNotifier.init <$> email c))
      ++ option_list (WebhookHandler <$> (WebhookNotifier.init <$> webhook c))
      ++ option_list (GrafanaHandler <$> (GrafanaNotifier.init <$> grafana c))).

Section Methods.
Context `{PyRuntime}.

(** [handler.send(alert)] *)
Definition handler_send (h : handler) (alert : Alert.t) (io : delivery_io)
    : outcome bool * list event :=
  match h with
  | ConsoleHandler n => ConsoleNotifier.send n alert io
  | LogFileHandler n => LogFileNotifier.send n alert io
  | EmailHandler n => EmailNotifier.send n alert io
  | WebhookHandler n => WebhookNotifier.send n alert io
  | GrafanaHandler n => GrafanaNotifier.send n alert io
  end.

(** the [for handler in self.handlers] loop: the new [success_count]
    and what happened *)
Fixpoint send_each (hs : list handler) (alert : Alert.t) (io : delivery_io)
    (success_count : nat) : nat * list event :=
  match hs with
  | [] => (success_count, [])
  | h :: hs' =>
      let '(r, evs) := handler_send h alert io in
      let '(success_count', caught) :=
        match r with
        | Ret true => (S success_count, [])
        | Ret false => (success_count, [])
        | Raise _ => (success_count, [LogError NotificationHandlerFailed])
        end in
      let '(total, rest) := send_each hs' alert io success_count' in
      (total, HandlerCalled (channel_of h) :: evs ++ caught ++ rest)
  end.

Definition send_alert (d : t) (alert : Alert.t) (io : delivery_io)
    : bool * list event :=
  let total_handlers := length (handlers d) in
  let '(success_count, evs) := send_each (handlers d) alert io 0%nat in
  let success := (0 <? success_count)%nat in
  (success,
   evs ++
   (if negb success then [LogError AllHandlersFailed]
    else if (success_count <? total_handlers)%nat
         then [LogWarning (SomeHandlersFailed success_count total_handlers)]
         else [])).
End Methods.
End NotificationDispatcher.

(* ===================================================================== *)
(** ** alert-engine.py: LokiClient *)
(* ===================================================================== *)

Module LokiClient.
(** A log line as [json.loads] sees it: a JSON value, or text that is
    not JSON ([JSONDecodeError]). *)
Inductive line :=
| JsonLine (v : pyval)
| TextLine (raw : string).

(** The answer to a range query: [session.get] or [raise_for_status]
    raises a [RequestException], or the entries of all streams arrive,
    each with its Loki timestamp. *)
Inductive reply :=
| Failed
| Entries (values : list (string * line)).

(** The log source during one cycle. *)
Record t := mk {
  ready : http_result;
  range : Z -> Z -> reply
}.

(** The loop of lines 89 to 102.  [log_data['_timestamp'] = timestamp]
    is a [TypeError] on a JSON value that is not an object. *)
Fixpoint collect (values : list (string * line)) : outcome (list pydict) :=
  match values with
  | [] => Ret []
  | (timestamp, log_line) :: rest =>
      match log_line with
      | JsonLine (PDict log_data) =>
          match collect rest with
          | Ret logs => Ret (dict_set log_data "_timestamp" (PStr timestamp) :: logs)
          | Raise e => Raise e
          end
      | JsonLine _ => Raise TypeError
      | TextLine raw =>
          match collect rest with
          | Ret logs =>
              Ret ([("_timestamp", PStr timestamp); ("_raw", PStr raw)] :: logs)
          | Raise e => Raise e
          end
      end
  end.

Definition query_range (c : t) (start stop : Z)
    : outcome (list pydict) * list event :=
  match range c start stop with
  | Failed => (Ret [], [LokiQueryRange start stop; LogError LokiQueryFailed])
  | Entries values => (collect values, [LokiQueryRange start stop])
  end.

Definition health_check (c : t) : bool :=
  match ready c with
  | Status code => code =? 200
  | RequestException => false
  end.
End LokiClient.

(* ===================================================================== *)
(** ** alert-engine.py: SecurityAlertEngine *)
(* ===================================================================== *)

(** [s.split(sep)] for a one-character separator *)
Fixpoint split_on (sep : ascii) (s : string) : list string :=
  match s with
  | EmptyString => [EmptyString]
  | String c s' =>
      if Ascii.eqb c sep then EmptyString :: split_on sep s'
      else
        match split_on sep s' with
        | [] => [String c EmptyString]
        | w :: ws => String c w :: ws
        end
  end.

(** [c in s] *)
Fixpoint contains_char (c : ascii) (s : string) : bool :=
  match s with
  | EmptyString => false
  | String c' s' => Ascii.eqb c' c || contains_char c s'
  end.

Module SecurityAlertEngine.
Record t := mk {
  max_consecutive_errors : option Z;   (* config: reliability.max_consecutive_errors *)
  rules : list AlertRule.t;
  deduplicator : AlertDeduplicator.t;
  behavioral_analyzer : BehavioralAnalyzer.t;
  last_check_time : Z;
  alert_count : Z;
  error_count : Z;
  notifier : option NotificationDispatcher.t
}.

(** The outside world during one cycle. *)
Record world := mk_world {
  clk : clock;
  loki_client : LokiClient.t;
  delivery : nat -> delivery_io;   (* for the i-th alert of the cycle *)
  stdout_prints : nat -> bool      (* the fallback [print] for the i-th alert returns *)
}.

Definition check_health (w : world) (e : t) : bool * list event :=
  if negb (LokiClient.health_check (loki_client w))
  then (false, [LokiReady; LogError LokiHealthCheckFailed])
  else
    let max_errors := default 5 (max_consecutive_errors e) in
    if max_errors <=? error_count e
    then (false, [LokiReady; LogError (TooManyConsecutiveErrors (error_count e))])
    else (true, [LokiReady]).

Section Methods.
Context `{PyRuntime}.

Definition _generate_alert_id (rule_name : string) (log_entry : pydict) : string :=
  let content :=
    rule_name +:+ "_" +:+ py_str (dict_get log_entry "session_id" (PStr ""))
              +:+ "_" +:+ py_str (dict_get log_entry "timestamp" (PStr "")) in
  String.substring 0 12 (Md5.hexdigest content).

(** the walk along a dotted path, lines 407 to 411 *)
Fixpoint nested_value (value : pyval) (keys : list string) : pyval :=
  match keys with
  | [] => value
  | key :: keys' =>
      let value' :=
        match value with
        | PDict d => dict_get d key (PStr "")
        | _ => PStr ""
        end in
      if negb (truthy value') then value' else nested_value value' keys'
  end.

Definition context_value (log_entry : pydict) (field : string) : pyval :=
  if contains_char "."%char field
  then nested_value (PDict log_entry) (split_on "."%char field)
  else dict_get log_entry field (PStr "").

Definition extract_context (fields : list string) (log_entry : pydict) : pydict :=
  fold_left (fun context field => dict_set context field (context_value log_entry field))
            fields [].

Definition _check_pattern_rule (c : clock) (rule : AlertRule.t)
    (log_entry : pydict) (tick : nat) : option Alert.t * nat :=
  match AlertRule.compiled_pattern rule with
  | Some search =>
      if search log_entry then
        let context := extract_context (AlertRule.context_fields rule) log_entry in
        let timestamp_str := dict_get log_entry "timestamp" (PStr "") in
        let '(timestamp_str, tick') :=
          if negb (truthy timestamp_str)
          then (PStr (isoformat (datetime_now c tick)), S tick)
          else (timestamp_str, tick) in
        (Some (Alert.mk (_generate_alert_id (AlertRule.name rule) log_entry)
                        (AlertRule.name rule) (AlertRule.severity rule)
                        (AlertRule.description rule) (AlertRule.category rule)
                        timestamp_str
                        (dict_get log_entry "session_id" (PStr "unknown"))
                        context log_entry 0),
         tick')
      else (None, tick)
  | None => (None, tick)
  end.

(** [for rule in self.rules], lines 374 to 378 *)
Fixpoint apply_rules (c : clock) (rs : list AlertRule.t) (log_entry : pydict)
    (tick : nat) : list Alert.t * nat :=
  match rs with
  | [] => ([], tick)
  | rule :: rs' =>
      let '(found, tick1) :=
        match AlertRule.compiled_pattern rule with
        | Some _ => _check_pattern_rule c rule log_entry tick
        | None => (None, tick)
        end in
      let '(more, tick2) := apply_rules c rs' log_entry tick1 in
      (option_list found ++ more, tick2)
  end.

(** [for log_entry in logs], lines 372 to 383: the alerts gathered
    until the loop ends or an exception leaves it *)
Fixpoint process_entries (c : clock) (rs : list AlertRule.t)
    (ba : BehavioralAnalyzer.t) (logs : list pydict) (tick : nat)
    : outcome unit * list Alert.t * BehavioralAnalyzer.t * nat :=
  match logs with
  | [] => (Ret tt, [], ba, tick)
  | log_entry :: logs' =>
      let '(pattern_alerts, tick1) := apply_rules c rs log_entry tick in
      let session_id := dict_get log_entry "session_id" (PStr "unknown") in
      match BehavioralAnalyzer.analyze_session c ba session_id log_entry tick1 with
      | (Raise e, ba', tick2) => (Raise e, pattern_alerts, ba', tick2)
      | (Ret behavioral_alerts, ba', tick2) =>
          let '(r, more, ba'', tick3) := process_entries c rs ba' logs' tick2 in
          (r, pattern_alerts ++ behavioral_alerts ++ more, ba'', tick3)
      end
  end.

Definition with_analysis (e : t) (ba : BehavioralAnalyzer.t)
    (checked : Z) (errors : Z) : t :=
  mk (max_consecutive_errors e) (rules e) (deduplicator e) ba checked
     (alert_count e) errors (notifier e).

Definition process_logs (w : world) (e : t) (tick : nat)
    : list Alert.t * t * nat * list event :=
  let end_time := datetime_now (clk w) tick in
  let tick := S tick in
  match LokiClient.query_range (loki_client w) (last_check_time e) end_time with
  | (Raise _, evs) =>
      ([], with_analysis e (behavioral_analyzer e) (last_check_time e)
                         (error_count e + 1),
       tick, evs ++ [LogError ErrorProcessingLogs])
  | (Ret logs, evs) =>
      match process_entries (clk w) (rules e) (behavioral_analyzer e) logs tick with
      | (Raise _, alerts, ba, tick') =>
          (alerts, with_analysis e ba (last_check_time e) (error_count e + 1),
           tick', evs ++ [LogError ErrorProcessingLogs])
      | (Ret _, alerts, ba, tick') =>
          (alerts, with_analysis e ba end_time 0, tick', evs)
      end
  end.

(** [for alert in alerts], lines 451 to 463, at the [i]-th alert *)
Fixpoint deliver (w : world) (notifier : option NotificationDispatcher.t)
    (dd : AlertDeduplicator.t) (alerts : list Alert.t) (i : nat)
    (sent_alerts alert_count : Z)
    : outcome unit * AlertDeduplicator.t * Z * Z * list event :=
  match alerts with
  | [] => (Ret tt, dd, sent_alerts, alert_count, [])
  | alert :: alerts' =>
      match AlertDeduplicator.should_alert dd alert with
      | (Raise e, dd') => (Raise e, dd', sent_alerts, alert_count, [])
      | (Ret false, dd') =>
          deliver w notifier dd' alerts' (S i) sent_alerts alert_count
      | (Ret true, dd') =>
          let '(delivered, evs) :=
            match notifier with
            | Some n =>
                (true, snd (NotificationDispatcher.send_alert n alert (delivery w i)))
            | None =>
                if stdout_prints w i then (true, [FallbackPrinted])
                else (false, [])
            end in
          let '(sent_alerts', alert_count', evs') :=
            if delivered
            then (sent_alerts + 1, alert_count + 1, evs ++ [LogInfo AlertSent])
            else (sent_alerts, alert_count, evs ++ [LogError FailedToSendAlert]) in
          let '(r, dd'', sent_alerts'', alert_count'', rest) :=
            deliver w notifier dd' alerts' (S i) sent_alerts' alert_count' in
          (r, dd'', sent_alerts'', alert_count'', evs' ++ rest)
      end
  end.

Definition with_delivery (e : t) (dd : AlertDeduplicator.t) (count : Z) : t :=
  mk (max_consecutive_errors e) (rules e) dd (behavioral_analyzer e)
     (last_check_time e) count (error_count e) (notifier e).

Definition run_once (w : world) (e : t) (tick : nat)
    : outcome Z * t * nat * list event :=
  let '(healthy, health_evs) := check_health w e in
  if negb healthy then (Ret 1, e, tick, health_evs)
  else
    let '(alerts, e1, tick1, log_evs) := process_logs w e tick in
    let '(r, dd, sent_alerts, count, send_evs) :=
      deliver w (notifier e1) (deduplicator e1) alerts 0 0 (alert_count e1) in
    let e2 := with_delivery e1 dd count in
    match r with
    | Raise x => (Raise x, e2, tick1, health_evs ++ log_evs ++ send_evs)
    | Ret _ =>
        (Ret 0, e2, tick1,
         health_evs ++ log_evs ++ send_evs ++
         match alerts with
         | [] => []
         | _ :: _ =>
             [LogInfo (ProcessedAlerts (Z.of_nat (length alerts)) sent_alerts)]
         end)
    end.
End Methods.
End SecurityAlertEngine.

(* ===================================================================== *)
(** ** A runtime to evaluate the code on concrete records *)
(* ===================================================================== *)

(** An instance of [PyRuntime] for the form that [isoformat()] prints for a
    naive datetime, [YYYY-MM-DDTHH:MM:SS] with an optional [.ffffff], over
    the proleptic Gregorian calendar; a datetime is counted in microseconds
    from 1970-01-01T00:00:00.  On a string of this form [parse] is
    [datetime.fromisoformat]; any other string is refused, which is what
    [datetime.fromisoformat] does with the strings that are no ISO-8601
    date at all. *)
Module IsoRuntime.

Definition days_from_civil (y m d : Z) : Z :=
  let y := if m <=? 2 then y - 1 else y in
  let era := y / 400 in
  let yoe := y - era * 400 in
  let doy := (153 * (if 2 <? m then m - 3 else m + 9) + 2) / 5 + d - 1 in
  let doe := yoe * 365 + yoe / 4 - yoe / 100 + doy in
  era * 146097 + doe - 719468.

Definition civil_from_days (z : Z) : Z * Z * Z :=
  let z := z + 719468 in
  let era := z / 146097 in
  let doe := z - era * 146097 in
  let yoe := (doe - doe / 1460 + doe / 36524 - doe / 146096) / 365 in
  let doy := doe - (365 * yoe + yoe / 4 - yoe / 100) in
  let mp := (5 * doy + 2) / 153 in
  let d := doy - (153 * mp + 2) / 5 + 1 in
  let m := if mp <? 10 then mp + 3 else mp - 9 in
  ((if m <=? 2 then yoe + era * 400 + 1 else yoe + era * 400), m, d).

Definition is_leap (y : Z) : bool :=
  (y mod 4 =? 0) && (negb (y mod 100 =? 0) || (y mod 400 =? 0)).

Definition days_in_month (y m : Z) : Z :=
  if m =? 2 then (if is_leap y then 29 else 28)
  else if (m =? 4) || (m =? 6) || (m =? 9) || (m =? 11) then 30
  else 31.

Definition digit (c : ascii) : option Z :=
  let n := Z.of_N (N_of_ascii c) in
  if (48 <=? n) && (n <=? 57) then Some (n - 48) else None.

(** the number written by the [n] digits at the head of [cs], and the rest *)
Fixpoint number (n : nat) (acc : Z) (cs : list ascii) : option (Z * list ascii) :=
  match n with
  | O => Some (acc, cs)
  | S n' =>
      match cs with
      | c :: cs' =>
          match digit c with
          | Some v => number n' (10 * acc + v) cs'
          | None => None
          end
      | [] => None
      end
  end.

Definition expect (c : ascii) (cs : list ascii) : option (list ascii) :=
  match cs with
  | c' :: cs' => if Ascii.eqb c c' then Some cs' else None
  | [] => None
  end.

Definition parse (s : string) : option Z :=
  '(y, cs) ← number 4 0 (list_ascii_of_string s);
  cs ← expect "-" cs;
  '(m, cs) ← number 2 0 cs;
  cs ← expect "-" cs;
  '(d, cs) ← number 2 0 cs;
  cs ← expect "T" cs;
  '(hh, cs) ← number 2 0 cs;
  cs ← expect ":" cs;
  '(mm, cs) ← number 2 0 cs;
  cs ← expect ":" cs;
  '(ss, cs) ← number 2 0 cs;
  '(us, cs) ← match cs with
              | [] => Some (0, [])
              | _ => cs ← expect "." cs; number 6 0 cs
              end;
  match cs with
  | [] =>
      if (1 <=? y) && (1 <=? m) && (m <=? 12) && (1 <=? d) && (d <=? days_in_month y m)
         && (hh <? 24) && (mm <? 60) && (ss <? 60)
      then Some ((((days_from_civil y m d * 24 + hh) * 60 + mm) * 60 + ss) * 1000000 + us)
      else None
  | _ => None
  end.

(** [n] printed on at least [width] digits *)
Definition zero_padded (width : nat) (n : Z) : string :=
  let digits := pretty n in
  string_of_list_ascii (repeat "0"%char (width - String.length digits)) +:+ digits.

Definition print (t : Z) : string :=
  let us := t mod 1000000 in
  let secs := t / 1000000 in
  let '(y, m, d) := civil_from_days (secs / 86400) in
  let sod := secs mod 86400 in
  zero_padded 4 y +:+ "-" +:+ zero_padded 2 m +:+ "-" +:+ zero_padded 2 d
    +:+ "T" +:+ zero_padded 2 (sod / 3600) +:+ ":" +:+ zero_padded 2 (sod mod 3600 / 60)
    +:+ ":" +:+ zero_padded 2 (sod mod 60)
    +:+ (if us =? 0 then "" else "." +:+ zero_padded 6 us).

(** [str(timedelta(microseconds=d))] *)
Definition print_timedelta (d : Z) : string :=
  let us := d mod 1000000 in
  let secs := d / 1000000 in
  let days := secs / 86400 in
  let sod := secs mod 86400 in
  (if days =? 0 then ""
   else pretty days +:+ (if Z.abs days =? 1 then " day, " else " days, "))
    +:+ pretty (sod / 3600) +:+ ":" +:+ zero_padded 2 (sod mod 3600 / 60)
    +:+ ":" +:+ zero_padded 2 (sod mod 60)
    +:+ (if us =? 0 then "" else "." +:+ zero_padded 6 us).

(** [repr] of floats and containers is not computed: the records below
    carry none in a place where the code prints one. *)
Definition runtime : PyRuntime :=
  {| fromisoformat := parse;
     isoformat := print;
     py_repr := fun _ => "...";
     timedelta_str := print_timedelta |}.

End IsoRuntime.

(* ===================================================================== *)
(** ** Vocabulary of the properties *)
(* ===================================================================== *)

Section Runs.
Context `{PyRuntime}.

(** [should_alert] called on each alert in turn *)
Fixpoint decisions (d : AlertDeduplicator.t) (alerts : list Alert.t)
    : list (outcome bool) * AlertDeduplicator.t :=
  match alerts with
  | [] => ([], d)
  | alert :: alerts' =>
      let '(r, d1) := AlertDeduplicator.should_alert d alert in
      let '(rs, d2) := decisions d1 alerts' in
      (r :: rs, d2)
  end.
End Runs.






(* ===================================================================== *)
(** ** Concrete configurations and records *)
(* ===================================================================== *)

Module Sample.
(** the deduplicator of an empty [deduplication] section: the defaults *)
Definition dedup : AlertDeduplicator.t :=
  AlertDeduplicator.mk true 5 ["rule_name"; "session_id"] 3 ∅.

(** an alert of the rule [suspicious_command] in session [s1] *)
Definition alert_at (timestamp : string) : Alert.t :=
  Alert.mk "0123456789ab" "suspicious_command" "HIGH" "Suspicious command"
           "command_execution" (PStr timestamp) (PStr "s1") [] [] 0.

Definition in_order : list string :=
  [ "2024-01-01T10:00:00"; "2024-01-01T10:01:00"; "2024-01-01T10:02:00";
    "2024-01-01T10:03:00"; "2024-01-01T10:10:00" ].

(** the same alerts, the one of 10:10 arriving before the one of 10:03 *)
Definition out_of_order : list string :=
  [ "2024-01-01T10:00:00"; "2024-01-01T10:01:00"; "2024-01-01T10:02:00";
    "2024-01-01T10:10:00"; "2024-01-01T10:03:00" ].

End Sample.

(** The channels whose handler the dispatcher called, in order. *)
Definition called (evs : list event) : list channel :=
  omap (fun ev => match ev with HandlerCalled c => Some c | _ => None end) evs.

(** [handler.send] returned true. *)
Definition succeeded (r : outcome bool) : bool :=
  match r with
  | Ret true => true
  | _ => false
  end.

Module SampleCycle.
(** a clock that starts at 2024-01-01T10:00:00 and moves one second
    between two readings *)
Definition clock_10h : clock :=
  {| datetime_now := fun n => 1704103200000000 + Z.of_nat n * 1000000;
     time_time := fun n => 1704103200 + Z.of_nat n |}.

(** every channel delivers *)
Definition all_delivered : delivery_io :=
  {| console_prints := true; logfile_writes := true; smtp_delivers := true;
     payload_renders := true; webhook_replies := fun _ => Status 200;
     grafana_reply := Status 200 |}.

(** a rule whose pattern matches the records that have an [event] field *)
Definition any_event : AlertRule.t :=
  AlertRule.mk "suspicious_command" true "HIGH" (Some "event")
               "Suspicious command" "command_execution" [] ["event"]
               (Some (fun log_entry =>
                       match dict_lookup log_entry "event" with
                       | Some _ => true
                       | None => false
                       end))
               None.

(** console and log file configured with their defaults *)
Definition dispatcher : NotificationDispatcher.t :=
  NotificationDispatcher.init
    (NotificationDispatcher.mk_config
       (Some (ConsoleNotifier.mk_config None None None None))
       (Some (LogFileNotifier.mk_config None None None))
       None None None).

(** an engine that last polled at 09:00 and has failed twice since *)
Definition engine : SecurityAlertEngine.t :=
  SecurityAlertEngine.mk None [any_event] Sample.dedup
    (BehavioralAnalyzer.mk ∅) 1704099600000000 0 2 (Some dispatcher).

Definition world_with (ready : http_result) (answer : LokiClient.reply)
    : SecurityAlertEngine.world :=
  SecurityAlertEngine.mk_world clock_10h
    (LokiClient.mk ready (fun _ _ => answer))
    (fun _ => all_delivered) (fun _ => true).

(** Loki is ready and the range query fails (connection reset, HTTP 500) *)
Definition query_fails : SecurityAlertEngine.world :=
  world_with (Status 200) LokiClient.Failed.

(** Loki is ready and returns one record, whose timestamp is no ISO date *)
Definition malformed_record : pydict :=
  [ ("timestamp", PStr "yesterday at noon"); ("session_id", PStr "s1");
    ("event", PStr "rm -rf /") ].

Definition one_malformed : SecurityAlertEngine.world :=
  world_with (Status 200)
    (LokiClient.Entries [("1704103199000000000", LokiClient.JsonLine (PDict malformed_record))]).

(** the same engine after five failed cycles in a row *)
Definition engine_at_ceiling : SecurityAlertEngine.t :=
  SecurityAlertEngine.mk None [any_event] Sample.dedup
    (BehavioralAnalyzer.mk ∅) 1704099600000000 0 5 (Some dispatcher).

(** Loki is ready and has nothing new *)
Definition quiet : SecurityAlertEngine.world :=
  world_with (Status 200) (LokiClient.Entries []).

(** Loki does not answer the readiness probe *)
Definition loki_down : SecurityAlertEngine.world :=
  world_with RequestException LokiClient.Failed.
End SampleCycle.



(** The violation counter of a session; a session not seen yet counts 0. *)
Definition violations_of (ba : BehavioralAnalyzer.t) (k : pykey) : Z :=
  BehavioralAnalyzer.scope_violations
    (default BehavioralAnalyzer.new_stats (BehavioralAnalyzer.session_stats ba !! k)).


Section AnalyzerRuns.
Context `{PyRuntime}.

(** [analyze_session] called on each record in turn, each with its
    session id *)
Fixpoint analyze_all (clk : clock) (ba : BehavioralAnalyzer.t)
    (records : list (pyval * pydict)) (tick : nat)
    : list (outcome (list Alert.t)) * BehavioralAnalyzer.t * nat :=
  match records with
  | [] => ([], ba, tick)
  | (session_id, log_entry) :: records' =>
      let '(r, ba1, tick1) :=
        BehavioralAnalyzer.analyze_session clk ba session_id log_entry tick in
      let '(rs, ba2, tick2) := analyze_all clk ba1 records' tick1 in
      (r :: rs, ba2, tick2)
  end.
End AnalyzerRuns.


Module SampleSession.
(** a record of session [s1] at [timestamp], inside or outside the
    project scope *)
Definition record (timestamp : string) (outside : bool) : pyval * pydict :=
  (PStr "s1",
   [ ("timestamp", PStr timestamp); ("session_id", PStr "s1");
     ("action_details", PDict [("outside_project_scope", PBool outside)]) ]).

(** four violations, a record in scope after the third *)
Definition records : list (pyval * pydict) :=
  [ record "2024-01-01T10:00:00" true; record "2024-01-01T10:00:10" true;
    record "2024-01-01T10:00:20" true; record "2024-01-01T10:00:30" false;
    record "2024-01-01T10:00:40" true ].
End SampleSession.



Module SampleWebhook.
(** a webhook with the default three attempts and no payload template *)
Definition notifier : WebhookNotifier.t :=
  WebhookNotifier.init
    (WebhookNotifier.mk_config (Some true) (Some "https://hooks.example/alerts") None None).

(** the endpoint answers the attempts with [replies], then with 500 *)
Definition answering (replies : list http_result) : delivery_io :=
  {| console_prints := true; logfile_writes := true; smtp_delivers := true;
     payload_renders := true;
     webhook_replies := fun n => nth n replies (Status 500);
     grafana_reply := Status 200 |}.
End SampleWebhook.

(** The handler does not deliver this alert: it is disabled, or the alert
    is under the console's [min_severity], or nobody is to be mailed for
    its severity, or the webhook has no URL.  [send] returns true at
    once. *)
Definition skips (alert : Alert.t) (h : NotificationDispatcher.handler) : bool :=
  match h with
  | NotificationDispatcher.ConsoleHandler n =>
      negb (ConsoleNotifier.should_notify n (Alert.severity alert))
  | NotificationDispatcher.LogFileHandler n => negb (LogFileNotifier.enabled n)
  | NotificationDispatcher.EmailHandler n =>
      negb (EmailNotifier.enabled n)
      || match EmailNotifier._get_recipients n (Alert.severity alert) with
         | [] => true
         | _ :: _ => false
         end
  | NotificationDispatcher.WebhookHandler n =>
      negb (WebhookNotifier.enabled n) || String.eqb (WebhookNotifier.url n) ""
  | NotificationDispatcher.GrafanaHandler n => negb (GrafanaNotifier.enabled n)
  end.

(** The configuration with no channel section. *)
Definition no_channels : NotificationDispatcher.config :=
  NotificationDispatcher.mk_config None None None None None.

(** The configuration with the [grafana] section and no other. *)
Definition grafana_only (c : GrafanaNotifier.config) : NotificationDispatcher.config :=
  NotificationDispatcher.mk_config None None None None (Some c).

Module SampleChannels.
(** the Grafana API answers with [reply] *)
Definition grafana_answers (reply : http_result) : delivery_io :=
  {| console_prints := true; logfile_writes := true; smtp_delivers := true;
     payload_renders := true; webhook_replies := fun _ => Status 200;
     grafana_reply := reply |}.

Definition grafana_with_key : GrafanaNotifier.config :=
  GrafanaNotifier.mk_config None (Some "glsa_0123456789").

(** a console for HIGH and above, a log file switched off, a mailer with
    recipients for CRITICAL only; and an alert of severity LOW *)
Definition quiet_config : NotificationDispatcher.config :=
  NotificationDispatcher.mk_config
    (Some (ConsoleNotifier.mk_config None (Some "HIGH") None None))
    (Some (LogFileNotifier.mk_config (Some false) None None))
    (Some (EmailNotifier.mk_config (Some true) (Some [("CRITICAL", ["soc@example.org"])])))
    None None.

Definition low_alert : Alert.t :=
  Alert.mk "0123456789ab" "large_file_read" "LOW" "Large file read" "file_access"
           (PStr "2024-01-01T10:00:00") (PStr "s1") [] [] 0.

(** a console, a webhook with a payload template, and Grafana without an
    API key *)
Definition templated_config : NotificationDispatcher.config :=
  NotificationDispatcher.mk_config
    (Some (ConsoleNotifier.mk_config None None None None))
    None None
    (Some (WebhookNotifier.mk_config (Some true) (Some "https://hooks.example/alerts")
                                     None (Some "{text: {description}}")))
    (Some (GrafanaNotifier.mk_config None None)).

(** [str.format] fails on the template: [text] is not among the names it
    is given *)
Definition template_fails : delivery_io :=
  {| console_prints := true; logfile_writes := true; smtp_delivers := true;
     payload_renders := false; webhook_replies := fun _ => Status 200;
     grafana_reply := Status 200 |}.
End SampleChannels.

Module SampleIds.




(** the analyzer after two violations of session [s1] *)
Definition two_violations : BehavioralAnalyzer.t :=
  BehavioralAnalyzer.mk
    {[ KStr "s1" := BehavioralAnalyzer.mk_stats
                      [1704103200000000; 1704103210000000] 2 (Some 1704103200000000) ]}.
End SampleIds.

(** A deduplicator with the configuration of [d0]. *)
Definition configured_as (d0 d : AlertDeduplicator.t) : Prop :=
  AlertDeduplicator.enabled d = AlertDeduplicator.enabled d0 /\
  AlertDeduplicator.window_minutes d = AlertDeduplicator.window_minutes d0 /\
  AlertDeduplicator.key_fields d = AlertDeduplicator.key_fields d0 /\
  AlertDeduplicator.max_occurrences d = AlertDeduplicator.max_occurrences d0.

(* ===================================================================== *)
(** ** alert-engine.py: SecurityAlertEngine._load_rules *)
(* ===================================================================== *)

Module RuleLoader.
(** One entry of the [rules] section; a key that is absent is [None]. *)
Record rule_config := mk_config {
  cfg_enabled : option bool;
  cfg_severity : option string;
  cfg_pattern : option string;
  cfg_description : option string;
  cfg_category : option string;
  cfg_response : option pydict;
  cfg_context_fields : option (list string);
  cfg_threshold : option pydict
}.

(** [if rule.pattern]: the pattern is there and is not the empty string *)
Definition has_pattern (pattern : option string) : bool :=
  match pattern with
  | Some (String _ _) => true
  | _ => false
  end.

Section Methods.
(** [re.compile(pattern, re.IGNORECASE)] followed by the search on the
    serialised record; [None] is [re.error]. *)
Variable re_compile : string -> option (pydict -> bool).

(** The body of the loop of lines 287 to 311 for one entry: the rule to
    append, or [None] after a [continue]. *)
Definition load_rule (rule_name : string) (c : rule_config) : option AlertRule.t :=
  if negb (default true (cfg_enabled c)) then None
  else
    let rule compiled :=
      AlertRule.mk rule_name (default true (cfg_enabled c))
                   (default "MEDIUM" (cfg_severity c)) (cfg_pattern c)
                   (default "" (cfg_description c)) (default "general" (cfg_category c))
                   (default [] (cfg_response c)) (default [] (cfg_context_fields c))
                   compiled (cfg_threshold c) in
    if has_pattern (cfg_pattern c) then
      match re_compile (default "" (cfg_pattern c)) with
      | Some search => Some (rule (Some search))
      | None => None
      end
    else Some (rule None).

Definition _load_rules (rules_config : list (string * rule_config)) : list AlertRule.t :=
  omap (fun entry => load_rule (fst entry) (snd entry)) rules_config.
End Methods.
End RuleLoader.

(* ===================================================================== *)
(** ** notification-dispatcher.py: LogFileNotifier on a file system *)
(* ===================================================================== *)

(** [LogFileNotifier.send] and [_rotate_if_needed] on the files they
    touch, where every file operation succeeds (a failing one is the
    [False] of [LogFileNotifier.send] above).  A file is the list of the
    lines written to it; backup [i] is the file
    [log_path.with_suffix('.log.i')]. *)
Module LogFiles.
Record t := mk {
  current : option (list string);      (* the file at [log_path], if it exists *)
  backups : gmap Z (list string)
}.

Record rotation := mk_rotation {
  cfg_max_size_mb : option Z;
  cfg_keep_files : option Z
}.

(** [st_size]: every line was written with its newline *)
Definition size (lines : list string) : Z :=
  fold_right (fun line acc => Z.of_nat (String.length line) + 1 + acc) 0 lines.

(** [old_file.rename(new_file)] for backup [i], when it exists *)
Definition shift_one (i : Z) (b : gmap Z (list string)) : gmap Z (list string) :=
  match b !! i with
  | Some lines => <[i + 1 := lines]> (delete i b)
  | None => b
  end.

(** [for i in range(keep_files - 1, 0, -1)], with [n] backups to go *)
Fixpoint shift (n : nat) (b : gmap Z (list string)) : gmap Z (list string) :=
  match n with
  | O => b
  | S n' => shift n' (shift_one (Z.of_nat n) b)
  end.

(** the size test of line 142: [st_size / (1024 * 1024) < max_size_mb] *)
Definition under_limit (r : rotation) (lines : list string) : bool :=
  size lines <? default 100 (cfg_max_size_mb r) * 1048576.

Definition _rotate_if_needed (r : rotation) (fs : t) : t :=
  match current fs with
  | None => fs
  | Some lines =>
      if under_limit r lines then fs
      else
        let keep_files := default 5 (cfg_keep_files r) in
        mk None (<[1 := lines]> (shift (Z.to_nat (keep_files - 1)) (backups fs)))
  end.

(** [f.write(log_line + '\n')] on the file opened for appending *)
Definition append (log_line : string) (fs : t) : t :=
  mk (Some (default [] (current fs) ++ [log_line])) (backups fs).

(** lines 105 to 126, with the line already formatted *)
Definition send (enabled : bool) (r : rotation) (log_line : string) (fs : t) : bool * t :=
  if negb enabled then (true, fs)
  else (true, append log_line (_rotate_if_needed r fs)).
End LogFiles.

(* ===================================================================== *)
(** ** Vocabulary of the further properties *)
(* ===================================================================== *)

Section Cycles.
Context `{PyRuntime}.

(** [run_once] cycle after cycle, each in its own world, as the loop of
    [run_continuous] calls it: a status that is not 0 is logged and the
    loop goes on, an exception leaves the loop. *)
Fixpoint cycles (ws : list SecurityAlertEngine.world) (e : SecurityAlertEngine.t)
    (tick : nat) : list (outcome Z) * SecurityAlertEngine.t * nat :=
  match ws with
  | [] => ([], e, tick)
  | w :: ws' =>
      match SecurityAlertEngine.run_once w e tick with
      | (Raise x, e', tick', _) => ([Raise x], e', tick')
      | (Ret status, e', tick', _) =>
          let '(rs, e'', tick'') := cycles ws' e' tick' in
          (Ret status :: rs, e'', tick'')
      end
  end.
End Cycles.

(** The deduplicators that agree on the configuration and on the history
    of [key]. *)
Definition agree_on (key : string) (d1 d2 : AlertDeduplicator.t) : Prop :=
  configured_as d1 d2 /\
  default [] (AlertDeduplicator.alert_history d1 !! key)
  = default [] (AlertDeduplicator.alert_history d2 !! key).

(** No history of [d] holds more than [n] timestamps. *)
Definition histories_within (n : Z) (d : AlertDeduplicator.t) : Prop :=
  forall (key : string) (h : list Z),
    AlertDeduplicator.alert_history d !! key = Some h -> Z.of_nat (length h) <= n.

(** The state of a session; a session not seen yet has the state of the
    [defaultdict] factory. *)
Definition stats_of (ba : BehavioralAnalyzer.t) (k : pykey) : BehavioralAnalyzer.stats :=
  default BehavioralAnalyzer.new_stats (BehavioralAnalyzer.session_stats ba !! k).

(** The record carries the ISO timestamp of the datetime [t]. *)
Definition stamped `{PyRuntime} (log_entry : pydict) (t : Z) : Prop :=
  exists s : string,
    dict_lookup log_entry "timestamp" = Some (PStr s) /\ s <> "" /\
    fromisoformat s = Some t.


(** [value] lies at the end of the path [keys] below [v], every value on
    the way being truthy. *)
Inductive reaches : pyval -> list string -> pyval -> Prop :=
| reaches_here (v : pyval) : reaches v [] v
| reaches_below (d : pydict) (key : string) (keys : list string) (v' v : pyval) :
    dict_lookup d key = Some v' -> truthy v' = true -> reaches v' keys v ->
    reaches (PDict d) (key :: keys) v.

(** The rule matches the record: what [apply_rules] tests. *)
Definition matches (log_entry : pydict) (rule : AlertRule.t) : bool :=
  match AlertRule.compiled_pattern rule with
  | Some search => search log_entry
  | None => false
  end.

(** The characters of a [hexdigest]. *)
Definition is_hex (c : ascii) : bool :=
  existsb (Ascii.eqb c) (list_ascii_of_string "0123456789abcdef").

(** A JSON line that is an object, or a line of text. *)
Definition usable (entry : string * LokiClient.line) : bool :=
  match snd entry with
  | LokiClient.JsonLine (PDict _) => true
  | LokiClient.JsonLine _ => false
  | LokiClient.TextLine _ => true
  end.

(** The backups are numbered from 1 to [keep]. *)
Definition numbered_within (keep : Z) (b : gmap Z (list string)) : Prop :=
  forall (i : Z) (lines : list string), b !! i = Some lines -> 1 <= i <= keep.

Module SampleBurst.
(** 22 records of session [s1], one per second from 10:00:00 *)
Definition entries : list pydict :=
  map (fun n => [ ("timestamp",
                   PStr ("2024-01-01T10:00:" +:+ IsoRuntime.zero_padded 2 (Z.of_nat n)));
                  ("session_id", PStr "s1") ])
      (seq 0 22).


(** a record of session [s2] *)
Definition other_session : pyval * pydict :=
  (PStr "s2",
   [ ("timestamp", PStr "2024-01-01T10:00:05"); ("session_id", PStr "s2");
     ("action_details", PDict [("outside_project_scope", PBool true)]) ]).
End SampleBurst.

Module SampleContext.
(** the record of a shell command, and a rule that keeps two fields of it *)
Definition command_record : pydict :=
  [ ("session_id", PStr "s1"); ("tool_name", PStr "Bash");
    ("action_details", PDict [("command", PStr "rm -rf /")]) ].
End SampleContext.

Module SampleBatch.
(** a JSON object and a line of text, as Loki returns them *)
Definition good_values : list (string * LokiClient.line) :=
  [ ("1704103199000000000",
     LokiClient.JsonLine (PDict [("session_id", PStr "s1"); ("event", PStr "ls")]));
    ("1704103199500000000", LokiClient.TextLine "hook started") ].

(** the same, followed by a line that is JSON and no object *)
Definition poisoned_values : list (string * LokiClient.line) :=
  good_values ++ [("1704103199900000000", LokiClient.JsonLine (PStr "heartbeat"))].

Definition poisoned : SecurityAlertEngine.world :=
  SampleCycle.world_with (Status 200) (LokiClient.Entries poisoned_values).

(** a record that matches the rule, a record whose [action_details] is a
    string, and a record after it *)
Definition matching : pydict :=
  [ ("timestamp", PStr "2024-01-01T09:59:58"); ("session_id", PStr "s1");
    ("event", PStr "rm -rf /") ].

Definition choking : pydict :=
  [ ("timestamp", PStr "2024-01-01T09:59:59"); ("session_id", PStr "s1");
    ("event", PStr "cat /etc/passwd"); ("action_details", PStr "n/a") ].

(** no channel delivers *)
Definition nothing_delivered : delivery_io :=
  {| console_prints := false; logfile_writes := false; smtp_delivers := false;
     payload_renders := false; webhook_replies := fun _ => Status 500;
     grafana_reply := Status 500 |}.

Definition deaf_world : SecurityAlertEngine.world :=
  SecurityAlertEngine.mk_world SampleCycle.clock_10h
    (LokiClient.mk (Status 200) (fun _ _ => LokiClient.Entries []))
    (fun _ => nothing_delivered) (fun _ => true).
End SampleBatch.

(** The configuration has a section for the channel. *)
Definition has_section (c : NotificationDispatcher.config) (ch : channel) : bool :=
  match ch with
  | Console => bool_decide (is_Some (NotificationDispatcher.console c))
  | LogFile => bool_decide (is_Some (NotificationDispatcher.logfile c))
  | Email => bool_decide (is_Some (NotificationDispatcher.email c))
  | Webhook => bool_decide (is_Some (NotificationDispatcher.webhook c))
  | Grafana => bool_decide (is_Some (NotificationDispatcher.grafana c))
  end.

(** The entry of the [rules] section is not disabled, and its pattern, if
    it has one, compiles. *)
Definition loadable (re_compile : string -> option (pydict -> bool))
    (entry : string * RuleLoader.rule_config) : bool :=
  default true (RuleLoader.cfg_enabled (snd entry))
  && match RuleLoader.cfg_pattern (snd entry) with
     | Some (String c p) => bool_decide (is_Some (re_compile (String c p)))
     | _ => true
     end.

(** The entry is not disabled and has a pattern that compiles and is
    found in the record. *)
Definition fires (re_compile : string -> option (pydict -> bool)) (log_entry : pydict)
    (entry : string * RuleLoader.rule_config) : bool :=
  default true (RuleLoader.cfg_enabled (snd entry))
  && match RuleLoader.cfg_pattern (snd entry) with
     | Some (String c p) =>
         match re_compile (String c p) with
         | Some search => search log_entry
         | None => false
         end
     | _ => false
     end.

Module SampleRules.
(** a stand-in for [re.compile] on the patterns of the sample: [(] is no
    regular expression, any other pattern is searched in the [event] of
    the record *)
Definition compile (pattern : string) : option (pydict -> bool) :=
  if String.eqb pattern "(" then None
  else Some (fun log_entry =>
               match dict_lookup log_entry "event" with
               | Some (PStr s) =>
                   match String.index 0 pattern s with Some _ => true | None => false end
               | _ => false
               end).

Definition entry (enabled : option bool) (pattern : option string) : RuleLoader.rule_config :=
  RuleLoader.mk_config enabled (Some "HIGH") pattern None None None None None.

(** a rule that matches [rm], a disabled rule, a rule whose pattern does
    not compile, a rule without pattern, a rule that matches [passwd] *)
Definition rules_config : list (string * RuleLoader.rule_config) :=
  [ ("destructive", entry None (Some "rm "));
    ("switched_off", entry (Some false) (Some "rm "));
    ("broken", entry (Some true) (Some "("));
    ("threshold_only", entry None None);
    ("credentials", entry (Some true) (Some "passwd")) ].
End SampleRules.

Module SampleFiles.
(** every write rotates: the limit is 0 MB; three files are kept *)
Definition always : LogFiles.rotation := LogFiles.mk_rotation (Some 0) (Some 3).

(** the log and its three backups *)
Definition full : LogFiles.t :=
  LogFiles.mk (Some ["alert 7"; "alert 8"])
              (<[1 := ["alert 5"; "alert 6"]]>
                 (<[2 := ["alert 3"; "alert 4"]]> (<[3 := ["alert 1"; "alert 2"]]> ∅))).
End SampleFiles.

(* ===================================================================== *)
(** * Properties *)
(* ===================================================================== *)

(** ** MD5 against the test suite of RFC 1321 *)

Example md5_empty : Md5.hexdigest "" = "d41d8cd98f00b204e9800998ecf8427e".
Proof. vm_compute. reflexivity. Qed.

Example md5_abc : Md5.hexdigest "abc" = "900150983cd24fb0d6963f7d28e17f72".
Proof. vm_compute. reflexivity. Qed.

Example md5_message_digest :
  Md5.hexdigest "message digest" = "f96b697d7cb7938d525a2f31aaf161d0".
Proof. vm_compute. reflexivity. Qed.

Example md5_two_blocks :
  Md5.hexdigest
    "12345678901234567890123456789012345678901234567890123456789012345678901234567890"
  = "57edf4a22be3c955ac49da2e2107b67a".
Proof. vm_compute. reflexivity. Qed.

(** ** The deduplicator *)









Section Deduplicator.
Context `{PyRuntime}.
Import AlertDeduplicator.

Lemma dedup_key_set_history d key h alert :
  dedup_key (set_history d key h) alert = dedup_key d alert.
Proof. reflexivity. Qed.


Lemma dedup_key_fields d d0 alert :
  key_fields d = key_fields d0 -> dedup_key d alert = dedup_key d0 alert.
Proof. unfold dedup_key, key_values. by intros ->. Qed.




End Deduplicator.







(** The alerts of the sample in time order: the fourth, at 10:03, is the
    fourth within five minutes and is suppressed; the one of 10:10 opens a
    new window. *)
Example dedup_in_order :
  fst (decisions (H := IsoRuntime.runtime) Sample.dedup
         (map Sample.alert_at Sample.in_order))
  = [Ret true; Ret true; Ret true; Ret false; Ret true].
Proof. vm_compute. reflexivity. Qed.


(** ** The dispatcher *)

Lemma called_app (evs1 evs2 : list event) :
  called (evs1 ++ evs2) = called evs1 ++ called evs2.
Proof. apply omap_app. Qed.

Lemma webhook_attempts_not_called n io remaining attempt :
  called (snd (WebhookNotifier.attempts n io remaining attempt)) = [].
Proof.
  revert attempt. induction remaining as [|r IH]; intros attempt; simpl; [reflexivity|].
  destruct (http_ok _); [reflexivity|].
  specialize (IH (attempt + 1)).
  destruct (WebhookNotifier.attempts n io r (attempt + 1)) as [sent evs]. simpl in *.
  destruct (attempt <? _); simpl; exact IH.
Qed.

Section Dispatcher.
Context `{PyRuntime}.
Import NotificationDispatcher.

(** No handler logs a call of a handler: only the dispatcher does. *)
Lemma handler_send_not_called h alert io :
  called (snd (handler_send h alert io)) = [].
Proof.
  destruct h as [n|n|n|n|n]; simpl.
  - unfold ConsoleNotifier.send.
    repeat (match goal with |- context [if ?b then _ else _] => destruct b end;
            try reflexivity).
  - unfold LogFileNotifier.send.
    repeat (match goal with |- context [if ?b then _ else _] => destruct b end;
            try reflexivity).
  - unfold EmailNotifier.send.
    destruct (negb _); [reflexivity|].
    destruct (EmailNotifier._get_recipients _ _); [reflexivity|].
    destruct (parse_timestamp _); [|reflexivity].
    destruct (smtp_delivers io); reflexivity.
  - unfold WebhookNotifier.send.
    destruct (_ || _); [reflexivity|].
    destruct (_ && _); [reflexivity|].
    pose proof (webhook_attempts_not_called n io
                  (Z.to_nat (WebhookNotifier.retry_attempts n)) 0) as Hw.
    destruct (WebhookNotifier.attempts _ _ _ _). exact Hw.
  - unfold GrafanaNotifier.send.
    destruct (negb _); [reflexivity|].
    destruct (parse_timestamp _); [|reflexivity].
    destruct (String.eqb _ _); [reflexivity|].
    destruct (http_ok _); reflexivity.
Qed.

Lemma send_each_spec hs alert io k :
  fst (send_each hs alert io k)
    = (k + length (List.filter succeeded
                    (map (fun h => fst (handler_send h alert io)) hs)))%nat /\
  called (snd (send_each hs alert io k)) = map channel_of hs.
Proof.
  revert k. induction hs as [|h hs IH]; intros k; [split; [simpl; lia|done]|].
  pose proof (handler_send_not_called h alert io) as Hquiet.
  cbn [send_each map List.filter].
  destruct (handler_send h alert io) as [r evs]. cbn [fst snd] in *.
  destruct r as [[|]|e]; cbn [succeeded];
    match goal with
    | |- context [send_each hs alert io ?k'] =>
        destruct (IH k') as [Hn Hc];
        destruct (send_each hs alert io k') as [total rest]
    end;
    cbn [fst snd length] in *; (split; [lia|]);
    change (called (HandlerCalled (channel_of h) :: ?l))
      with (channel_of h :: called l);
    by rewrite !called_app, Hquiet, Hc.
Qed.

Lemma existsb_succeeded (rs : list (outcome bool)) :
  existsb succeeded rs = (0 <? length (List.filter succeeded rs))%nat.
Proof.
  induction rs as [|r rs IH]; [reflexivity|]. simpl.
  destruct (succeeded r); simpl; [reflexivity|exact IH].
Qed.
End Dispatcher.

(** C2.  [send_alert] returns true exactly when the [send] of at least one
    handler returns true.  Every handler is called, once and in order,
    whatever the handlers before it returned or raised.  When some handlers
    succeed and not all, the call logs the partial failure as a warning and
    still returns true. *)
Theorem send_alert_isolates_handlers `{PyRuntime}
    (d : NotificationDispatcher.t) (alert : Alert.t) (io : delivery_io) :
  let hs := NotificationDispatcher.handlers d in
  let rs := map (fun h => fst (NotificationDispatcher.handler_send h alert io)) hs in
  let successes := length (List.filter succeeded rs) in
  let success := fst (NotificationDispatcher.send_alert d alert io) in
  let evs := snd (NotificationDispatcher.send_alert d alert io) in
  success = existsb succeeded rs /\
  called evs = map NotificationDispatcher.channel_of hs /\
  ((0 < successes < length hs)%nat ->
   success = true /\ In (LogWarning (SomeHandlersFailed successes (length hs))) evs).
Proof.
  intros hs rs successes success evs.
  subst success evs. unfold NotificationDispatcher.send_alert. fold hs.
  destruct (send_each_spec hs alert io 0) as [Hn Hc].
  fold rs in Hn. fold successes in Hn. simpl in Hn.
  destruct (NotificationDispatcher.send_each hs alert io 0) as [n evs]. simpl in *.
  subst n. split; [by rewrite existsb_succeeded|]. split.
  - rewrite called_app, Hc.
    destruct (0 <? successes)%nat; simpl; [|by rewrite app_nil_r].
    destruct (successes <? length hs)%nat; simpl; by rewrite app_nil_r.
  - intros [Hpos Hlt].
    apply Nat.ltb_lt in Hpos as Hpos'. apply Nat.ltb_lt in Hlt as Hlt'.
    rewrite Hpos', Hlt'. simpl. split; [reflexivity|].
    apply in_or_app. right. by left.
Qed.

(** The webhook raises out of [send]: the handler after it is called all
    the same, and the call reports success with a partial failure. *)
Example raising_handler_does_not_stop_dispatch :
  NotificationDispatcher.send_alert (H := IsoRuntime.runtime)
    (NotificationDispatcher.init SampleChannels.templated_config)
    (Sample.alert_at "2024-01-01T10:00:00") SampleChannels.template_fails
  = (true,
     [ HandlerCalled Console; ConsolePrinted;
       HandlerCalled Webhook; LogError NotificationHandlerFailed;
       HandlerCalled Grafana; LogInfo GrafanaAnnotationCreated;
       LogWarning (SomeHandlersFailed 2 3) ]).
Proof. vm_compute. reflexivity. Qed.

(** ** The polling cycle *)

Section Cycle.
Context `{PyRuntime}.
Import SecurityAlertEngine.

(** A cycle either counts an error and keeps the cursor where it was, or
    resets the count and moves the cursor to the time of the poll. *)
Lemma process_logs_error_or_advance w e tick :
  let e' := snd (fst (fst (process_logs w e tick))) in
  (error_count e' = error_count e + 1 /\ last_check_time e' = last_check_time e) \/
  (error_count e' = 0 /\ last_check_time e' = datetime_now (clk w) tick).
Proof.
  unfold process_logs.
  destruct (LokiClient.query_range _ _ _) as [[logs|x] evs]; simpl; [|by left].
  destruct (process_entries _ _ _ _ _) as [[[[u|x] alerts] ba] tick']; simpl;
    [by right|by left].
Qed.

(** An exception that leaves the loop over the records is counted and the
    cursor stays. *)
Lemma process_logs_exception_keeps_cursor w e tick logs evs x alerts ba tick' :
  LokiClient.query_range (loki_client w) (last_check_time e) (datetime_now (clk w) tick)
    = (Ret logs, evs) ->
  process_entries (clk w) (rules e) (behavioral_analyzer e) logs (S tick)
    = (Raise x, alerts, ba, tick') ->
  let e' := snd (fst (fst (process_logs w e tick))) in
  error_count e' = error_count e + 1 /\ last_check_time e' = last_check_time e.
Proof. intros Hq Hp. unfold process_logs. by rewrite Hq, Hp. Qed.

(** Unhealthy means: the probe failed, or the error count is at the
    ceiling. *)
Lemma check_health_false w e :
  fst (check_health w e) = false <->
  LokiClient.health_check (loki_client w) = false \/
  default 5 (max_consecutive_errors e) <= error_count e.
Proof.
  unfold check_health.
  destruct (LokiClient.health_check (loki_client w)); simpl.
  - destruct (Z.leb_spec (default 5 (max_consecutive_errors e)) (error_count e)); simpl.
    + split; [by right|done].
    + split; [done|]. intros [?|?]; [done|lia].
  - split; [by left|done].
Qed.
End Cycle.

(** C3 (the code at a failing range query).  When the request of the range
    query raises a [RequestException], [query_range] returns no records and
    [process_logs] takes the cycle for a successful one: the error counter
    is reset to zero and [last_check_time] moves to the time of the poll, so
    the range is not queried again. *)
Theorem query_failure_advances_cursor `{PyRuntime}
    (w : SecurityAlertEngine.world) (e : SecurityAlertEngine.t) (tick : nat) :
  let end_time := datetime_now (SecurityAlertEngine.clk w) tick in
  LokiClient.range (SecurityAlertEngine.loki_client w)
                   (SecurityAlertEngine.last_check_time e) end_time = LokiClient.Failed ->
  exists e',
    SecurityAlertEngine.process_logs w e tick
      = ([], e', S tick,
         [LokiQueryRange (SecurityAlertEngine.last_check_time e) end_time;
          LogError LokiQueryFailed]) /\
    SecurityAlertEngine.error_count e' = 0 /\
    SecurityAlertEngine.last_check_time e' = end_time.
Proof.
  intros end_time Hfail.
  unfold SecurityAlertEngine.process_logs, LokiClient.query_range.
  fold end_time. rewrite Hfail. simpl. eexists. split; [reflexivity|]. by split.
Qed.

Lemma query_failure_advances_cursor_witness :
  exists e',
    SecurityAlertEngine.process_logs (H := IsoRuntime.runtime)
        SampleCycle.query_fails SampleCycle.engine 0
      = ([], e', 1%nat,
         [LokiQueryRange 1704099600000000 1704103200000000; LogError LokiQueryFailed]) /\
    SecurityAlertEngine.error_count e' = 0 /\
    SecurityAlertEngine.last_check_time e' = 1704103200000000.
Proof.
  apply (query_failure_advances_cursor (H := IsoRuntime.runtime)
           SampleCycle.query_fails SampleCycle.engine 0).
  reflexivity.
Defined.

(** The failed range is not queried again: the cycle after the failure
    asks for the records from the time of the failed poll on. *)
Example failed_range_not_queried_again :
  let '(_, e1, tick1, _) :=
    SecurityAlertEngine.run_once (H := IsoRuntime.runtime)
      SampleCycle.query_fails SampleCycle.engine 0 in
  snd (SecurityAlertEngine.run_once (H := IsoRuntime.runtime) SampleCycle.quiet e1 tick1)
  = [LokiReady; LokiQueryRange 1704103200000000 1704103201000000].
Proof. vm_compute. reflexivity. Qed.

(** C8.  When the health check fails, because the readiness probe fails or
    the error count has reached the ceiling, [run_once] returns 1; the
    engine is the engine of before, with its rules, its session state, its
    dedup history, its counters and its [last_check_time]; the clock has not
    been read, and nothing happened but the probe and the error logged: no
    range query. *)
Theorem run_once_unhealthy_skips_cycle `{PyRuntime}
    (w : SecurityAlertEngine.world) (e : SecurityAlertEngine.t) (tick : nat) :
  LokiClient.health_check (SecurityAlertEngine.loki_client w) = false \/
  default 5 (SecurityAlertEngine.max_consecutive_errors e)
    <= SecurityAlertEngine.error_count e ->
  exists evs,
    SecurityAlertEngine.run_once w e tick = (Ret 1, e, tick, evs) /\
    Forall (fun ev => ev = LokiReady \/ exists m, ev = LogError m) evs /\
    forall start stop, ~ In (LokiQueryRange start stop) evs.
Proof.
  intros Hbad. apply check_health_false in Hbad.
  unfold SecurityAlertEngine.run_once.
  assert (Hevs : Forall (fun ev => ev = LokiReady \/ exists m, ev = LogError m)
                        (snd (SecurityAlertEngine.check_health w e))).
  { unfold SecurityAlertEngine.check_health.
    destruct (negb _); [|destruct (_ <=? _)]; simpl;
      repeat (apply List.Forall_cons; [first [by left | right; eexists; reflexivity]|]);
      apply List.Forall_nil. }
  destruct (SecurityAlertEngine.check_health w e) as [healthy evs]. simpl in *.
  subst healthy. simpl. exists evs. split; [reflexivity|]. split; [exact Hevs|].
  intros start stop Hin. rewrite List.Forall_forall in Hevs.
  destruct (Hevs _ Hin) as [Heq|[m Heq]]; discriminate Heq.
Qed.

Lemma run_once_unhealthy_skips_cycle_witness :
  exists evs,
    SecurityAlertEngine.run_once (H := IsoRuntime.runtime)
        SampleCycle.quiet SampleCycle.engine_at_ceiling 0
      = (Ret 1, SampleCycle.engine_at_ceiling, 0%nat, evs) /\
    Forall (fun ev => ev = LokiReady \/ exists m, ev = LogError m) evs /\
    forall start stop, ~ In (LokiQueryRange start stop) evs.
Proof.
  apply (run_once_unhealthy_skips_cycle (H := IsoRuntime.runtime)
           SampleCycle.quiet SampleCycle.engine_at_ceiling 0).
  right. simpl. lia.
Defined.

(** The readiness probe fails: the same, with the counters as they were. *)
Example run_once_loki_down :
  SecurityAlertEngine.run_once (H := IsoRuntime.runtime)
    SampleCycle.loki_down SampleCycle.engine 0
  = (Ret 1, SampleCycle.engine, 0%nat, [LokiReady; LogError LokiHealthCheckFailed]).
Proof. reflexivity. Qed.

(** ** Malformed timestamps *)

Section MalformedTimestamp.
Context `{PyRuntime}.

(** The analyzer reads the clock when the record's timestamp does not
    parse. *)
Lemma analyzer_falls_back_to_now clk log_entry tick s :
  dict_lookup log_entry "timestamp" = Some (PStr s) ->
  fromisoformat s = None ->
  BehavioralAnalyzer.entry_timestamp clk log_entry tick
    = (Ret (datetime_now clk tick), S tick).
Proof.
  intros Hts Hbad. unfold BehavioralAnalyzer.entry_timestamp, dict_get.
  rewrite Hts. simpl. destruct s; simpl; [reflexivity|].
  by rewrite Hbad.
Qed.

(** A pattern rule copies the record's timestamp into the alert as it
    is. *)
Lemma pattern_alert_keeps_timestamp clk rule search log_entry tick v :
  AlertRule.compiled_pattern rule = Some search ->
  search log_entry = true ->
  dict_lookup log_entry "timestamp" = Some v ->
  truthy v = true ->
  exists alert,
    SecurityAlertEngine._check_pattern_rule clk rule log_entry tick = (Some alert, tick) /\
    Alert.timestamp alert = v.
Proof.
  intros Hpat Hmatch Hts Htruthy. unfold SecurityAlertEngine._check_pattern_rule.
  rewrite Hpat, Hmatch. unfold dict_get at 1 2. rewrite Hts. simpl. rewrite Htruthy. simpl.
  eexists. split; reflexivity.
Qed.

(** The deduplicator has no such fallback: [fromisoformat] raises out of
    [should_alert]. *)
Lemma should_alert_malformed_timestamp d alert s :
  AlertDeduplicator.enabled d = true ->
  Alert.timestamp alert = PStr s ->
  fromisoformat s = None ->
  AlertDeduplicator.should_alert d alert = (Raise ValueError, d).
Proof.
  intros Hen Hts Hbad. unfold AlertDeduplicator.should_alert, parse_timestamp.
  by rewrite Hen, Hts, Hbad.
Qed.

(** And [run_once] calls [should_alert] outside any [try]: the loop over
    the alerts ends there, nothing is delivered for this alert or for the
    alerts after it. *)
Lemma deliver_malformed_timestamp w notifier d alert alerts i sent count s :
  AlertDeduplicator.enabled d = true ->
  Alert.timestamp alert = PStr s ->
  fromisoformat s = None ->
  SecurityAlertEngine.deliver w notifier d (alert :: alerts) i sent count
    = (Raise ValueError, d, sent, count, []).
Proof.
  intros Hen Hts Hbad. simpl.
  by rewrite (should_alert_malformed_timestamp d alert s).
Qed.
End MalformedTimestamp.

(** C4 (the code at a malformed timestamp).  One record whose [timestamp]
    is the string [yesterday at noon] matches a pattern rule.  The analyzer
    falls back to the clock, the pattern alert carries the string, and
    [should_alert] raises [ValueError] out of [run_once]: no handler is
    called and nothing is printed, while the cursor has moved past the
    record. *)
Theorem run_once_malformed_timestamp_raises :
  exists e' evs,
    SecurityAlertEngine.run_once (H := IsoRuntime.runtime)
        SampleCycle.one_malformed SampleCycle.engine 0
      = (Raise ValueError, e', 2%nat, evs) /\
    called evs = [] /\
    ~ In FallbackPrinted evs /\
    SecurityAlertEngine.last_check_time e' = 1704103200000000 /\
    SecurityAlertEngine.alert_count e' = 0.
Proof.
  eexists. eexists. split; [vm_compute; reflexivity|].
  split; [reflexivity|]. split; [|split; reflexivity].
  simpl. intros [Hc|[Hc|[]]]; discriminate Hc.
Qed.

(** ** The behavioural analyzer *)

Section Analyzer.
Context `{PyRuntime}.
Import BehavioralAnalyzer.


Lemma violations_of_store ba k st :
  violations_of (store ba k st) k = scope_violations st.
Proof. unfold violations_of, store. simpl. by rewrite lookup_insert_eq. Qed.

Lemma violations_of_store_ne ba k k' st :
  k <> k' -> violations_of (store ba k st) k' = violations_of ba k'.
Proof. intros Hne. unfold violations_of, store. simpl. by rewrite lookup_insert_ne. Qed.


(** Whatever the record and whatever the outcome, no call lowers a
    counter. *)
Lemma analyze_session_never_resets clk ba session_id log_entry tick k :
  violations_of ba k
    <= violations_of (snd (fst (analyze_session clk ba session_id log_entry tick))) k.
Proof.
  unfold analyze_session.
  destruct (hash_key session_id) as [k0|]; [|simpl; lia].
  assert (Hstore : forall st',
            violations_of ba k0 <= scope_violations st' ->
            violations_of ba k <= violations_of (store ba k0 st') k).
  { intros st' Hle. destruct (decide (k0 = k)) as [->|Hne].
    - by rewrite violations_of_store.
    - rewrite violations_of_store_ne by done. lia. }
  destruct (entry_timestamp clk log_entry tick) as [[t|x] tick1]; simpl.
  - destruct (if (20 <? _)%nat then _ else _) as [alerts1 tick2].
    destruct (dict_get log_entry "action_details" (PDict [])); simpl;
      try (apply Hstore; simpl; unfold violations_of; lia).
    destruct (truthy _); [destruct (3 <=? _)|]; simpl;
      apply Hstore; simpl; unfold violations_of; lia.
  - apply Hstore. unfold violations_of. lia.
Qed.
End Analyzer.




(** The sample session: alerts (here, their rule names) on the third and on
    the fourth violating record, none on the record in scope between
    them. *)
Example repeated_scope_on_third_and_after :
  map (fun r => match r with
                | Ret alerts => Some (map Alert.rule_name alerts)
                | Raise _ => None
                end)
      (fst (fst (analyze_all (H := IsoRuntime.runtime) SampleCycle.clock_10h
                             (BehavioralAnalyzer.mk ∅) SampleSession.records 0)))
  = [ Some []; Some []; Some ["repeated_scope_violations"]; Some [];
      Some ["repeated_scope_violations"] ].
Proof. vm_compute. reflexivity. Qed.

(** ** The webhook *)




(** With three attempts configured: three answers 500 make the handler
    fail, after pauses of 1 and 2 seconds; an answer 200 after one answer
    500 makes it succeed at the second attempt. *)
Example webhook_three_500 :
  WebhookNotifier.send SampleWebhook.notifier (Sample.alert_at "2024-01-01T10:00:00")
                       (SampleWebhook.answering [Status 500; Status 500; Status 500])
  = (Ret false,
     [ HttpRequest 0; LogWarning (WebhookAttemptFailed 1); Slept 1;
       HttpRequest 1; LogWarning (WebhookAttemptFailed 2); Slept 2;
       HttpRequest 2; LogWarning (WebhookAttemptFailed 3);
       LogError (WebhookGaveUp 3) ]).
Proof. reflexivity. Qed.

Example webhook_500_then_200 :
  WebhookNotifier.send SampleWebhook.notifier (Sample.alert_at "2024-01-01T10:00:00")
                       (SampleWebhook.answering [Status 500; Status 200])
  = (Ret true,
     [ HttpRequest 0; LogWarning (WebhookAttemptFailed 1); Slept 1;
       HttpRequest 1; LogInfo WebhookSent ]).
Proof. reflexivity. Qed.


(** ** Channels that fail, channels that skip *)

Lemma grafana_send_result `{PyRuntime}
    (g : GrafanaNotifier.t) (alert : Alert.t) (io : delivery_io) (t : Z) :
  GrafanaNotifier.enabled g = true ->
  GrafanaNotifier.api_key g <> "" ->
  parse_timestamp (Alert.timestamp alert) = Ret t ->
  fst (GrafanaNotifier.send g alert io) = Ret (http_ok (grafana_reply io)).
Proof.
  intros Hen Hkey Hts. apply String.eqb_neq in Hkey.
  unfold GrafanaNotifier.send. rewrite Hen, Hts, Hkey. simpl.
  by destruct (http_ok (grafana_reply io)).
Qed.

(** C7 (the code with Grafana alone).  With the [grafana] section as the
    only channel section, enabled and with an API key, [send_alert] returns
    what the Grafana handler returns: true when the annotation is posted,
    false when the request fails. *)
Theorem grafana_failure_fails_send_alert `{PyRuntime}
    (c : GrafanaNotifier.config) (alert : Alert.t) (posted refused : delivery_io) (t : Z) :
  GrafanaNotifier.enabled (GrafanaNotifier.init c) = true ->
  GrafanaNotifier.api_key (GrafanaNotifier.init c) <> "" ->
  parse_timestamp (Alert.timestamp alert) = Ret t ->
  http_ok (grafana_reply posted) = true ->
  http_ok (grafana_reply refused) = false ->
  let d := NotificationDispatcher.init (grafana_only c) in
  fst (NotificationDispatcher.send_alert d alert posted) = true /\
  fst (NotificationDispatcher.send_alert d alert refused) = false.
Proof.
  intros Hen Hkey Hts Hup Hdown d. subst d.
  pose proof (grafana_send_result _ alert posted t Hen Hkey Hts) as Hp.
  pose proof (grafana_send_result _ alert refused t Hen Hkey Hts) as Hr.
  rewrite Hup in Hp. rewrite Hdown in Hr.
  unfold NotificationDispatcher.send_alert, NotificationDispatcher.init, grafana_only.
  simpl.
  destruct (GrafanaNotifier.send (GrafanaNotifier.init c) alert posted) as [r1 evs1].
  destruct (GrafanaNotifier.send (GrafanaNotifier.init c) alert refused) as [r2 evs2].
  simpl in Hp, Hr. subst r1 r2. by split.
Qed.

Lemma grafana_failure_fails_send_alert_witness :
  let d := NotificationDispatcher.init (grafana_only SampleChannels.grafana_with_key) in
  fst (NotificationDispatcher.send_alert (H := IsoRuntime.runtime) d
         (Sample.alert_at "2024-01-01T10:00:00")
         (SampleChannels.grafana_answers (Status 200))) = true /\
  fst (NotificationDispatcher.send_alert (H := IsoRuntime.runtime) d
         (Sample.alert_at "2024-01-01T10:00:00")
         (SampleChannels.grafana_answers (Status 503))) = false.
Proof.
  apply (grafana_failure_fails_send_alert (H := IsoRuntime.runtime)
           SampleChannels.grafana_with_key (Sample.alert_at "2024-01-01T10:00:00")
           (SampleChannels.grafana_answers (Status 200))
           (SampleChannels.grafana_answers (Status 503)) 1704103200000000).
  - reflexivity.
  - discriminate.
  - reflexivity.
  - reflexivity.
  - reflexivity.
Defined.

Section Skips.
Context `{PyRuntime}.

Lemma handler_send_skips h alert io :
  skips alert h = true ->
  NotificationDispatcher.handler_send h alert io = (Ret true, []).
Proof.
  destruct h as [n|n|n|n|n]; simpl; intros Hskip.
  - unfold ConsoleNotifier.send. by rewrite Hskip.
  - unfold LogFileNotifier.send. by rewrite Hskip.
  - unfold EmailNotifier.send.
    destruct (negb (EmailNotifier.enabled n)); [reflexivity|]. simpl in Hskip.
    by destruct (EmailNotifier._get_recipients n (Alert.severity alert)).
  - unfold WebhookNotifier.send. by rewrite Hskip.
  - unfold GrafanaNotifier.send. by rewrite Hskip.
Qed.

Lemma send_each_skips hs alert io k :
  forallb (skips alert) hs = true ->
  NotificationDispatcher.send_each hs alert io k
    = ((k + length hs)%nat,
       map (fun h => HandlerCalled (NotificationDispatcher.channel_of h)) hs).
Proof.
  revert k. induction hs as [|h hs IH]; intros k Hall; simpl.
  - f_equal. lia.
  - simpl in Hall. apply andb_true_iff in Hall as [Hh Hhs].
    rewrite (handler_send_skips h alert io Hh), (IH (S k) Hhs). simpl.
    f_equal. lia.
Qed.
End Skips.

(** C10.  With no channel section [send_alert] returns false, for every
    alert.  A handler that skips the alert returns true from [send] and
    does nothing; and a dispatcher with at least one handler, whose handlers
    all skip the alert, returns true while all that happened is that each
    handler was called: nothing was printed, written, mailed or posted. *)
Theorem skipped_channels_count_as_success `{PyRuntime}
    (d : NotificationDispatcher.t) (alert : Alert.t) (io : delivery_io) :
  NotificationDispatcher.handlers d <> [] ->
  forallb (skips alert) (NotificationDispatcher.handlers d) = true ->
  NotificationDispatcher.send_alert (NotificationDispatcher.init no_channels) alert io
    = (false, [LogError AllHandlersFailed]) /\
  Forall (fun h => NotificationDispatcher.handler_send h alert io = (Ret true, []))
         (NotificationDispatcher.handlers d) /\
  NotificationDispatcher.send_alert d alert io
    = (true, map (fun h => HandlerCalled (NotificationDispatcher.channel_of h))
                 (NotificationDispatcher.handlers d)).
Proof.
  intros Hsome Hskip. split; [reflexivity|]. split.
  - apply List.Forall_forall. intros h Hh. apply handler_send_skips.
    rewrite forallb_forall in Hskip. by apply Hskip.
  - unfold NotificationDispatcher.send_alert.
    rewrite (send_each_skips _ alert io 0 Hskip). simpl.
    destruct (NotificationDispatcher.handlers d) as [|h hs]; [done|]. simpl.
    rewrite Nat.ltb_irrefl. simpl. by rewrite app_nil_r.
Qed.

Lemma skipped_channels_count_as_success_witness :
  let d := NotificationDispatcher.init SampleChannels.quiet_config in
  NotificationDispatcher.send_alert (H := IsoRuntime.runtime)
      (NotificationDispatcher.init no_channels) SampleChannels.low_alert
      SampleCycle.all_delivered
    = (false, [LogError AllHandlersFailed]) /\
  Forall (fun h => NotificationDispatcher.handler_send (H := IsoRuntime.runtime) h
                     SampleChannels.low_alert SampleCycle.all_delivered = (Ret true, []))
         (NotificationDispatcher.handlers d) /\
  NotificationDispatcher.send_alert (H := IsoRuntime.runtime) d SampleChannels.low_alert
      SampleCycle.all_delivered
    = (true, map (fun h => HandlerCalled (NotificationDispatcher.channel_of h))
                 (NotificationDispatcher.handlers d)).
Proof.
  apply (skipped_channels_count_as_success (H := IsoRuntime.runtime)
           (NotificationDispatcher.init SampleChannels.quiet_config)
           SampleChannels.low_alert SampleCycle.all_delivered).
  - discriminate.
  - reflexivity.
Defined.

(** ** Alert identifiers *)





(* ===================================================================== *)
(** * Further properties of the code *)
(* ===================================================================== *)

(** ** The deduplicator: switched off, bounded, key by key *)

Section DeduplicatorMore.
Context `{PyRuntime}.
Import AlertDeduplicator.

Lemma clean_old_length (c : Z) (h : list Z) :
  (length (clean_old c h) <= length h)%nat.
Proof.
  induction h as [|x h IH]; simpl; [lia|].
  destruct (x <? c); simpl; lia.
Qed.

Lemma should_alert_configured d alert :
  configured_as d (snd (should_alert d alert)).
Proof.
  unfold should_alert. destruct (negb (enabled d)); [done|].
  destruct (parse_timestamp _); [|done].
  destruct (_ <=? _); done.
Qed.

Lemma should_alert_other_key d alert key :
  dedup_key d alert <> key ->
  alert_history (snd (should_alert d alert)) !! key = alert_history d !! key.
Proof.
  intros Hne. unfold should_alert. destruct (negb (enabled d)); [done|].
  destruct (parse_timestamp _); [|done].
  destruct (_ <=? _); simpl; by rewrite lookup_insert_ne.
Qed.

Lemma should_alert_agree key d1 d2 alert :
  agree_on key d1 d2 ->
  dedup_key d1 alert = key ->
  fst (should_alert d1 alert) = fst (should_alert d2 alert) /\
  agree_on key (snd (should_alert d1 alert)) (snd (should_alert d2 alert)).
Proof.
  intros [(Hen & HW & Hkf & HM) Hh] Hkey.
  assert (Hkey2 : dedup_key d2 alert = key)
    by (by rewrite (dedup_key_fields d2 d1 alert Hkf)).
  unfold should_alert. rewrite Hkey, Hkey2, Hen, HW, HM, Hh.
  destruct (negb (enabled d1)); [by repeat split|].
  destruct (parse_timestamp _) as [now|x]; [|by repeat split].
  destruct (_ <=? _); simpl; (split; [reflexivity|]);
    (split; [by repeat split|]); simpl; by rewrite !lookup_insert_eq.
Qed.
End DeduplicatorMore.

(** X1.  A deduplicator that is switched off lets every alert through,
    whatever its history and whatever the alert carries as a timestamp, and
    its state stays as it was. *)
Theorem dedup_disabled_passes_all `{PyRuntime}
    (d : AlertDeduplicator.t) (alerts : list Alert.t) :
  AlertDeduplicator.enabled d = false ->
  decisions d alerts = (map (fun _ => Ret true) alerts, d).
Proof.
  intros Hoff. induction alerts as [|a alerts IH]; [reflexivity|].
  cbn [decisions map]. unfold AlertDeduplicator.should_alert. rewrite Hoff. simpl.
  by rewrite IH.
Qed.

Lemma dedup_disabled_passes_all_witness :
  decisions (H := IsoRuntime.runtime)
    (AlertDeduplicator.mk false 5 ["rule_name"; "session_id"] 3 ∅)
    [Sample.alert_at "yesterday at noon"; Sample.alert_at "2024-01-01T10:00:00"]
  = ([Ret true; Ret true], AlertDeduplicator.mk false 5 ["rule_name"; "session_id"] 3 ∅).
Proof.
  apply (dedup_disabled_passes_all (H := IsoRuntime.runtime)
           (AlertDeduplicator.mk false 5 ["rule_name"; "session_id"] 3 ∅)
           [Sample.alert_at "yesterday at noon"; Sample.alert_at "2024-01-01T10:00:00"]).
  reflexivity.
Defined.

(** X2.  No history grows past [max_occurrences]: when every history holds
    at most [max_occurrences] timestamps (as on a new deduplicator), it is
    so again after any alerts, of any keys, in any order, whether the calls
    return or raise. *)
Theorem dedup_histories_bounded `{PyRuntime}
    (d : AlertDeduplicator.t) (alerts : list Alert.t) :
  histories_within (Z.max 0 (AlertDeduplicator.max_occurrences d)) d ->
  histories_within (Z.max 0 (AlertDeduplicator.max_occurrences d))
                   (snd (decisions d alerts)).
Proof.
  revert d. induction alerts as [|a alerts IH]; intros d Hd; [exact Hd|].
  cbn [decisions].
  destruct (AlertDeduplicator.should_alert d a) as [r d1] eqn:Hcall.
  specialize (IH d1).
  destruct (decisions d1 alerts) as [rs d2]. simpl in *.
  assert (HM : AlertDeduplicator.max_occurrences d1 = AlertDeduplicator.max_occurrences d).
  { pose proof (should_alert_configured d a) as (_ & _ & _ & HM).
    by rewrite Hcall in HM. }
  rewrite HM in IH. apply IH. clear IH.
  unfold AlertDeduplicator.should_alert in Hcall.
  destruct (negb (AlertDeduplicator.enabled d)); [by injection Hcall as _ <-|].
  destruct (parse_timestamp _) as [now|x]; [|by injection Hcall as _ <-].
  set (key := AlertDeduplicator.dedup_key d a) in *.
  set (h := AlertDeduplicator.clean_old _ _) in *.
  assert (Hh : Z.of_nat (length h) <= Z.max 0 (AlertDeduplicator.max_occurrences d)).
  { unfold h. destruct (AlertDeduplicator.alert_history d !! key) as [h0|] eqn:Hlook; simpl.
    - pose proof (clean_old_length
                    (now - minutes (AlertDeduplicator.window_minutes d)) h0).
      specialize (Hd key h0 Hlook). lia.
    - lia. }
  destruct (Z.leb_spec (AlertDeduplicator.max_occurrences d) (Z.of_nat (length h)));
    injection Hcall as _ <-; intros key' h' Hlook'; simpl in Hlook';
    (destruct (decide (key = key')) as [<-|Hne];
     [rewrite lookup_insert_eq in Hlook'; injection Hlook' as <-
     |rewrite lookup_insert_ne in Hlook' by done; by apply (Hd key')]).
  - exact Hh.
  - rewrite length_app. simpl. lia.
Qed.

Lemma dedup_histories_bounded_witness :
  histories_within (Z.max 0 3)
    (snd (decisions (H := IsoRuntime.runtime) Sample.dedup
            (map Sample.alert_at Sample.out_of_order))).
Proof.
  apply (dedup_histories_bounded (H := IsoRuntime.runtime) Sample.dedup
           (map Sample.alert_at Sample.out_of_order)).
  intros key h Hlook. discriminate Hlook.
Defined.

(** X3.  The keys do not share a budget: among alerts of many keys, the
    answers given to the alerts of one key are the answers that these
    alerts get when the others are left out. *)
Theorem dedup_keys_independent `{PyRuntime}
    (d : AlertDeduplicator.t) (alerts : list Alert.t) (key : string) :
  let of_key (a : Alert.t) := String.eqb (AlertDeduplicator.dedup_key d a) key in
  map snd (List.filter (fun ar => of_key (fst ar))
                       (combine alerts (fst (decisions d alerts))))
  = fst (decisions d (List.filter of_key alerts)).
Proof.
  intros of_key.
  assert (Hgen : forall d1 d2,
            agree_on key d1 d2 -> configured_as d d1 ->
            map snd (List.filter (fun ar => of_key (fst ar))
                                 (combine alerts (fst (decisions d1 alerts))))
            = fst (decisions d2 (List.filter of_key alerts))).
  { induction alerts as [|a alerts IH]; intros d1 d2 Hagree Hcfg; [reflexivity|].
    pose proof Hcfg as (_ & _ & Hkf & _).
    cbn [decisions].
    destruct (AlertDeduplicator.should_alert d1 a) as [r1 d1'] eqn:Hcall1.
    pose proof (should_alert_configured d1 a) as Hcfg1. rewrite Hcall1 in Hcfg1.
    simpl in Hcfg1.
    assert (Hcfg' : configured_as d d1').
    { destruct Hcfg as (? & ? & ? & ?), Hcfg1 as (? & ? & ? & ?).
      repeat split; congruence. }
    destruct (decisions d1' alerts) as [rs1 d1''] eqn:Hrun1.
    cbn [fst combine List.filter].
    destruct (of_key a) eqn:Hof.
    - assert (Hk1 : AlertDeduplicator.dedup_key d1 a = key).
      { rewrite (dedup_key_fields d1 d a Hkf). by apply String.eqb_eq. }
      destruct (should_alert_agree key d1 d2 a Hagree Hk1) as [Hr Hagree'].
      rewrite Hcall1 in Hr, Hagree'. simpl in Hr, Hagree'.
      cbn [decisions map snd fst].
      destruct (AlertDeduplicator.should_alert d2 a) as [r2 d2']. simpl in Hr, Hagree'.
      specialize (IH d1' d2' Hagree' Hcfg'). rewrite Hrun1 in IH. simpl in IH.
      destruct (decisions d2' (List.filter of_key alerts)) as [rs2 d2'']. simpl in *.
      by rewrite Hr, IH.
    - assert (Hk1 : AlertDeduplicator.dedup_key d1 a <> key).
      { rewrite (dedup_key_fields d1 d a Hkf). by apply String.eqb_neq. }
      assert (Hagree' : agree_on key d1' d2).
      { destruct Hagree as [Hc Hh]. split.
        - destruct Hc as (? & ? & ? & ?), Hcfg1 as (? & ? & ? & ?).
          repeat split; congruence.
        - pose proof (should_alert_other_key d1 a key Hk1) as Hsame.
          rewrite Hcall1 in Hsame. simpl in Hsame. by rewrite Hsame. }
      specialize (IH d1' d2 Hagree' Hcfg'). rewrite Hrun1 in IH. exact IH. }
  apply Hgen; by repeat split.
Qed.

(** ** The analyzer: frequency, first timestamp, other sessions *)


Section AnalyzerMore.
Context `{PyRuntime}.
Import BehavioralAnalyzer.

Lemma stats_of_store ba k st : stats_of (store ba k st) k = st.
Proof. unfold stats_of, store. simpl. by rewrite lookup_insert_eq. Qed.

Lemma entry_timestamp_stamped clk log_entry tick t :
  stamped log_entry t -> entry_timestamp clk log_entry tick = (Ret t, tick).
Proof.
  intros (s & Hlook & Hne & Hparse). unfold entry_timestamp, dict_get.
  rewrite Hlook. simpl. destruct s; [done|]. simpl. by rewrite Hparse.
Qed.


(** Whatever the record and the outcome, a call for another session leaves
    the state of session [k] as it was. *)
Lemma analyze_session_other_session clk ba session_id log_entry tick k :
  hash_key session_id <> Some k ->
  session_stats (snd (fst (analyze_session clk ba session_id log_entry tick))) !! k
  = session_stats ba !! k.
Proof.
  intros Hne. unfold analyze_session.
  destruct (hash_key session_id) as [k0|]; [|reflexivity].
  assert (Hk : k0 <> k) by congruence.
  destruct (entry_timestamp clk log_entry tick) as [[t|x] tick1]; simpl;
    [|by rewrite lookup_insert_ne].
  destruct (if (20 <? _)%nat then _ else _) as [alerts1 tick2].
  destruct (dict_get log_entry "action_details" (PDict [])); simpl;
    try (by rewrite lookup_insert_ne).
  destruct (truthy _); [destruct (3 <=? _)|]; simpl; by rewrite lookup_insert_ne.
Qed.

(** Whatever the record and the outcome, a call keeps the start time that
    the session has. *)
Lemma analyze_session_keeps_start clk ba session_id log_entry tick k s :
  start_time (stats_of ba k) = Some s ->
  start_time (stats_of (snd (fst (analyze_session clk ba session_id log_entry tick))) k)
  = Some s.
Proof.
  intros Hs.
  destruct (decide (hash_key session_id = Some k)) as [Hk|Hk].
  - unfold analyze_session. rewrite Hk. fold (stats_of ba k).
    destruct (entry_timestamp clk log_entry tick) as [[t|x] tick1]; simpl;
      [|by rewrite stats_of_store].
    destruct (if (20 <? _)%nat then _ else _) as [alerts1 tick2].
    rewrite Hs. simpl.
    destruct (dict_get log_entry "action_details" (PDict [])); simpl;
      try (by rewrite stats_of_store).
    destruct (truthy _); [destruct (3 <=? _)|]; simpl; by rewrite stats_of_store.
  - unfold stats_of in *. by rewrite (analyze_session_other_session _ _ _ _ _ _ Hk).
Qed.
End AnalyzerMore.



(** The burst of the sample: 22 records in 22 seconds, an alert on the 21st
    and on the 22nd. *)
Example burst_alerts :
  map (fun r => match r with
                | Ret alerts => map Alert.rule_name alerts
                | Raise _ => []
                end)
      (fst (fst (analyze_all (H := IsoRuntime.runtime) SampleCycle.clock_10h
                             (BehavioralAnalyzer.mk ∅)
                             (map (fun e => (PStr "s1", e)) SampleBurst.entries) 0)))
  = repeat [] 20 ++ [["high_frequency_operations"]; ["high_frequency_operations"]].
Proof. vm_compute. reflexivity. Qed.

Section AnalyzerRunsMore.
Context `{PyRuntime}.

Lemma analyze_all_keeps_start clk ba records tick k s :
  BehavioralAnalyzer.start_time (stats_of ba k) = Some s ->
  BehavioralAnalyzer.start_time (stats_of (snd (fst (analyze_all clk ba records tick))) k)
  = Some s.
Proof.
  revert ba tick. induction records as [|[sid e] records IH]; intros ba tick Hs; [exact Hs|].
  cbn [analyze_all].
  pose proof (analyze_session_keeps_start clk ba sid e tick k s Hs) as Hs1.
  destruct (BehavioralAnalyzer.analyze_session clk ba sid e tick) as [[r ba1] tick1].
  simpl in Hs1. specialize (IH ba1 tick1 Hs1).
  destruct (analyze_all clk ba1 records tick1) as [[rs ba2] tick2]. exact IH.
Qed.

Lemma analyze_session_sets_start clk ba session_id k log_entry t tick :
  hash_key session_id = Some k ->
  stamped log_entry t ->
  BehavioralAnalyzer.start_time
    (stats_of (snd (fst (BehavioralAnalyzer.analyze_session clk ba session_id log_entry tick))) k)
  = Some (default t (BehavioralAnalyzer.start_time (stats_of ba k))).
Proof.
  intros Hk Hstamp. unfold BehavioralAnalyzer.analyze_session.
  rewrite Hk, (entry_timestamp_stamped _ _ _ _ Hstamp). fold (stats_of ba k).
  destruct (if (20 <? _)%nat then _ else _) as [alerts1 tick2].
  destruct (dict_get log_entry "action_details" (PDict [])); simpl;
    try (by rewrite stats_of_store).
  destruct (truthy _); [destruct (3 <=? _)|]; simpl; by rewrite stats_of_store.
Qed.
End AnalyzerRunsMore.

(** X5.  The start of a session is the timestamp of its first record: for a
    session new to the analyzer whose first record carries the timestamp
    [t], the start time is [t] after that record and after any records that
    follow, of this session or of others, whatever their outcome. *)
Theorem session_start_is_first_timestamp `{PyRuntime}
    (clk : clock) (ba : BehavioralAnalyzer.t) (session_id : pyval) (k : pykey)
    (first : pydict) (t : Z) (records : list (pyval * pydict)) (tick : nat) :
  hash_key session_id = Some k ->
  BehavioralAnalyzer.session_stats ba !! k = None ->
  stamped first t ->
  BehavioralAnalyzer.start_time
    (stats_of (snd (fst (analyze_all clk ba ((session_id, first) :: records) tick))) k)
  = Some t.
Proof.
  intros Hk Hnew Hstamp. cbn [analyze_all].
  pose proof (analyze_session_sets_start clk ba session_id k first t tick Hk Hstamp) as Hs.
  unfold stats_of at 2 in Hs. rewrite Hnew in Hs. simpl in Hs.
  destruct (BehavioralAnalyzer.analyze_session clk ba session_id first tick)
    as [[r ba1] tick1]. simpl in Hs.
  pose proof (analyze_all_keeps_start clk ba1 records tick1 k t Hs) as Hrun.
  destruct (analyze_all clk ba1 records tick1) as [[rs ba2] tick2]. exact Hrun.
Qed.

Lemma session_start_is_first_timestamp_witness :
  BehavioralAnalyzer.start_time
    (stats_of (snd (fst (analyze_all (H := IsoRuntime.runtime) SampleCycle.clock_10h
                           (BehavioralAnalyzer.mk ∅)
                           (SampleSession.record "2024-01-01T10:00:00" true
                              :: SampleBurst.other_session :: SampleSession.records) 0)))
              (KStr "s1"))
  = Some 1704103200000000.
Proof.
  apply (session_start_is_first_timestamp (H := IsoRuntime.runtime) SampleCycle.clock_10h
           (BehavioralAnalyzer.mk ∅) (PStr "s1") (KStr "s1")
           (snd (SampleSession.record "2024-01-01T10:00:00" true)) 1704103200000000
           (SampleBurst.other_session :: SampleSession.records) 0).
  - reflexivity.
  - reflexivity.
  - eexists. split; [reflexivity|]. split; [discriminate|reflexivity].
Defined.

(** X6.  The sessions do not touch each other: records of other sessions,
    whatever they hold and whatever the outcome of their analysis, leave
    the state of a session as it was. *)
Theorem other_sessions_untouched `{PyRuntime}
    (clk : clock) (ba : BehavioralAnalyzer.t) (records : list (pyval * pydict))
    (tick : nat) (k : pykey) :
  Forall (fun r => hash_key (fst r) <> Some k) records ->
  BehavioralAnalyzer.session_stats (snd (fst (analyze_all clk ba records tick))) !! k
  = BehavioralAnalyzer.session_stats ba !! k.
Proof.
  intros Hall. revert ba tick.
  induction Hall as [|[sid e] records Hne _ IH]; intros ba tick; [reflexivity|].
  cbn [analyze_all]. simpl in Hne.
  pose proof (analyze_session_other_session clk ba sid e tick k Hne) as Hcall.
  destruct (BehavioralAnalyzer.analyze_session clk ba sid e tick) as [[r ba1] tick1].
  simpl in Hcall. specialize (IH ba1 tick1).
  destruct (analyze_all clk ba1 records tick1) as [[rs ba2] tick2]. simpl in *.
  by rewrite IH.
Qed.

Lemma other_sessions_untouched_witness :
  BehavioralAnalyzer.session_stats
    (snd (fst (analyze_all (H := IsoRuntime.runtime) SampleCycle.clock_10h
                 SampleIds.two_violations
                 [SampleBurst.other_session; SampleBurst.other_session] 0)))
    !! KStr "s1"
  = BehavioralAnalyzer.session_stats SampleIds.two_violations !! KStr "s1".
Proof.
  apply (other_sessions_untouched (H := IsoRuntime.runtime) SampleCycle.clock_10h
           SampleIds.two_violations
           [SampleBurst.other_session; SampleBurst.other_session] 0 (KStr "s1")).
  repeat (apply List.Forall_cons; [discriminate|]). apply List.Forall_nil.
Defined.

(** ** The rule engine: which rules fire, what the context holds *)

Section RuleEngine.
Context `{PyRuntime}.
Import SecurityAlertEngine.

Lemma check_pattern_rule_fields clk rule log_entry tick :
  match fst (_check_pattern_rule clk rule log_entry tick) with
  | Some a =>
      matches log_entry rule = true /\
      Alert.rule_name a = AlertRule.name rule /\
      Alert.severity a = AlertRule.severity rule /\
      Alert.raw_log a = log_entry
  | None => matches log_entry rule = false
  end.
Proof.
  unfold _check_pattern_rule, matches.
  destruct (AlertRule.compiled_pattern rule) as [search|]; [|reflexivity].
  destruct (search log_entry); [|reflexivity].
  destruct (negb (truthy _)); simpl; by repeat split.
Qed.
End RuleEngine.

(** X7.  Every rule is tried on every record, whatever the rules before it
    did: the alerts of a record are the alerts of the rules whose pattern
    matches it, one for each and in the order of the rules, each with the
    name and the severity of its rule and the record as [raw_log]. *)
Theorem apply_rules_fires_matching_rules `{PyRuntime}
    (clk : clock) (rs : list AlertRule.t) (log_entry : pydict) (tick : nat) :
  Forall2 (fun a rule =>
             Alert.rule_name a = AlertRule.name rule /\
             Alert.severity a = AlertRule.severity rule /\
             Alert.raw_log a = log_entry)
          (fst (SecurityAlertEngine.apply_rules clk rs log_entry tick))
          (List.filter (matches log_entry) rs).
Proof.
  revert tick. induction rs as [|rule rs IH]; intros tick; [constructor|].
  cbn [SecurityAlertEngine.apply_rules List.filter].
  pose proof (check_pattern_rule_fields clk rule log_entry tick) as Hrule.
  assert (Hfound :
    (match AlertRule.compiled_pattern rule with
     | Some _ => SecurityAlertEngine._check_pattern_rule clk rule log_entry tick
     | None => (None, tick)
     end) = SecurityAlertEngine._check_pattern_rule clk rule log_entry tick).
  { unfold SecurityAlertEngine._check_pattern_rule.
    by destruct (AlertRule.compiled_pattern rule). }
  rewrite Hfound.
  destruct (SecurityAlertEngine._check_pattern_rule clk rule log_entry tick)
    as [[a|] tick1]; simpl in Hrule.
  - destruct Hrule as (Hm & Hfields). rewrite Hm.
    specialize (IH tick1).
    destruct (SecurityAlertEngine.apply_rules clk rs log_entry tick1) as [more tick2].
    simpl in *. by constructor.
  - rewrite Hrule. specialize (IH tick1).
    destruct (SecurityAlertEngine.apply_rules clk rs log_entry tick1) as [more tick2].
    exact IH.
Qed.

Lemma dict_lookup_set_eq (d : pydict) (k : string) (v : pyval) :
  dict_lookup (dict_set d k v) k = Some v.
Proof.
  induction d as [|[k' v'] d IH]; simpl.
  - by rewrite String.eqb_refl.
  - destruct (String.eqb_spec k' k) as [->|Hne]; simpl.
    + by rewrite String.eqb_refl.
    + apply String.eqb_neq in Hne. by rewrite Hne.
Qed.

Lemma dict_lookup_set_ne (d : pydict) (k k' : string) (v : pyval) :
  k <> k' -> dict_lookup (dict_set d k v) k' = dict_lookup d k'.
Proof.
  intros Hne. induction d as [|[k0 v0] d IH]; simpl.
  - apply String.eqb_neq in Hne. by rewrite Hne.
  - destruct (String.eqb_spec k0 k) as [->|Hk]; simpl.
    + apply String.eqb_neq in Hne. by rewrite Hne.
    + destruct (k0 =? k')%string; [reflexivity|exact IH].
Qed.

(** X8.  The context of a pattern alert has one entry for each field named
    in [context_fields], holding what the record holds for it, and no other
    entry; a field named twice is one entry. *)
Theorem extract_context_lookup
    (fields : list string) (log_entry : pydict) (field : string) :
  dict_lookup (SecurityAlertEngine.extract_context fields log_entry) field
  = if existsb (String.eqb field) fields
    then Some (SecurityAlertEngine.context_value log_entry field)
    else None.
Proof.
  unfold SecurityAlertEngine.extract_context.
  assert (Hgen : forall context,
            dict_lookup
              (fold_left (fun context field =>
                            dict_set context field
                              (SecurityAlertEngine.context_value log_entry field))
                         fields context) field
            = if existsb (String.eqb field) fields
              then Some (SecurityAlertEngine.context_value log_entry field)
              else dict_lookup context field).
  { induction fields as [|f fields IH]; intros context; [reflexivity|].
    cbn [fold_left existsb]. rewrite IH.
    destruct (existsb (String.eqb field) fields); [by rewrite orb_true_r|].
    rewrite orb_false_r.
    destruct (String.eqb_spec field f) as [->|Hne].
    - apply dict_lookup_set_eq.
    - apply dict_lookup_set_ne. congruence. }
  by rewrite Hgen.
Qed.









(** The path of the sample exists; a path that does not gives the empty
    string. *)
Example context_of_command :
  reaches (PDict SampleContext.command_record) ["action_details"; "command"]
          (PStr "rm -rf /") /\
  SecurityAlertEngine.extract_context
    ["tool_name"; "action_details.command"; "action_details.missing"; "file_path"]
    SampleContext.command_record
  = [ ("tool_name", PStr "Bash"); ("action_details.command", PStr "rm -rf /");
      ("action_details.missing", PStr ""); ("file_path", PStr "") ].
Proof.
  split; [|reflexivity].
  eapply reaches_below; [reflexivity|reflexivity|].
  eapply reaches_below; [reflexivity|reflexivity|]. constructor.
Qed.

(** ** The batch of a cycle *)

(** X10.  [query_range] turns the entries of a reply into records or
    raises: when every line is a JSON object or plain text, there is one
    record for each entry, in order, whose [_timestamp] is the timestamp
    that Loki gave, a JSON object keeping its other fields and a line of
    text becoming the record of its [_raw] text; when a line is JSON and
    not an object, the whole reply is lost to a [TypeError]. *)
Theorem collect_records_or_raises (values : list (string * LokiClient.line)) :
  match LokiClient.collect values with
  | Ret logs =>
      forallb usable values = true /\
      Forall2 (fun entry log =>
                 dict_lookup log "_timestamp" = Some (PStr (fst entry)) /\
                 match snd entry with
                 | LokiClient.JsonLine (PDict log_data) =>
                     forall key, key <> "_timestamp" ->
                                 dict_lookup log key = dict_lookup log_data key
                 | LokiClient.JsonLine _ => False
                 | LokiClient.TextLine raw =>
                     log = [("_timestamp", PStr (fst entry)); ("_raw", PStr raw)]
                 end)
              values logs
  | Raise e => e = TypeError /\ forallb usable values = false
  end.
Proof.
  induction values as [|[timestamp log_line] values IH]; [by split; [|constructor]|].
  cbn [LokiClient.collect forallb]. unfold usable at 1 3. cbn [snd].
  destruct log_line as [v|raw].
  - destruct v as [| | | | | |log_data]; try (by split).
    destruct (LokiClient.collect values) as [logs|e].
    + destruct IH as [Hall Hlogs]. split; [exact Hall|].
      constructor; [|exact Hlogs]. split.
      * apply dict_lookup_set_eq.
      * intros key Hkey. apply dict_lookup_set_ne. congruence.
    + destruct IH as [-> Hall]. by split.
  - destruct (LokiClient.collect values) as [logs|e].
    + destruct IH as [Hall Hlogs]. split; [exact Hall|].
      constructor; [|exact Hlogs]. by split.
    + destruct IH as [-> Hall]. by split.
Qed.

(** X11.  One line that is JSON and not an object poisons its batch: the
    cycle produces no alert from any record of the reply, the analyzer has
    seen none of them, one error is counted and the cursor stays. *)
Theorem poisoned_batch_is_dropped `{PyRuntime}
    (w : SecurityAlertEngine.world) (e : SecurityAlertEngine.t) (tick : nat)
    (values : list (string * LokiClient.line)) :
  let end_time := datetime_now (SecurityAlertEngine.clk w) tick in
  LokiClient.range (SecurityAlertEngine.loki_client w)
                   (SecurityAlertEngine.last_check_time e) end_time
    = LokiClient.Entries values ->
  forallb usable values = false ->
  SecurityAlertEngine.process_logs w e tick
  = ([],
     SecurityAlertEngine.mk (SecurityAlertEngine.max_consecutive_errors e)
       (SecurityAlertEngine.rules e) (SecurityAlertEngine.deduplicator e)
       (SecurityAlertEngine.behavioral_analyzer e)
       (SecurityAlertEngine.last_check_time e) (SecurityAlertEngine.alert_count e)
       (SecurityAlertEngine.error_count e + 1) (SecurityAlertEngine.notifier e),
     S tick,
     [LokiQueryRange (SecurityAlertEngine.last_check_time e) end_time;
      LogError ErrorProcessingLogs]).
Proof.
  intros end_time Hrange Hbad.
  unfold SecurityAlertEngine.process_logs, LokiClient.query_range.
  fold end_time. rewrite Hrange.
  pose proof (collect_records_or_raises values) as Hcollect.
  destruct (LokiClient.collect values) as [logs|x].
  - destruct Hcollect as [Hall _]. congruence.
  - reflexivity.
Qed.

Lemma poisoned_batch_is_dropped_witness :
  SecurityAlertEngine.process_logs (H := IsoRuntime.runtime)
    SampleBatch.poisoned SampleCycle.engine 0
  = ([],
     SecurityAlertEngine.mk None [SampleCycle.any_event] Sample.dedup
       (BehavioralAnalyzer.mk ∅) 1704099600000000 0 (2 + 1)
       (Some SampleCycle.dispatcher),
     1%nat,
     [LokiQueryRange 1704099600000000 1704103200000000; LogError ErrorProcessingLogs]).
Proof.
  apply (poisoned_batch_is_dropped (H := IsoRuntime.runtime)
           SampleBatch.poisoned SampleCycle.engine 0 SampleBatch.poisoned_values).
  - reflexivity.
  - reflexivity.
Defined.

Section Batch.
Context `{PyRuntime}.
Import SecurityAlertEngine.

(** The loop over the records, on a batch in two parts. *)
Lemma process_entries_app c rs ba logs1 logs2 tick :
  process_entries c rs ba (logs1 ++ logs2) tick
  = match process_entries c rs ba logs1 tick with
    | (Raise x, alerts1, ba1, tick1) => (Raise x, alerts1, ba1, tick1)
    | (Ret _, alerts1, ba1, tick1) =>
        let '(r, alerts2, ba2, tick2) := process_entries c rs ba1 logs2 tick1 in
        (r, alerts1 ++ alerts2, ba2, tick2)
    end.
Proof.
  revert ba tick. induction logs1 as [|log_entry logs1 IH]; intros ba tick.
  - simpl. by destruct (process_entries c rs ba logs2 tick) as [[[r a] b] t].
  - cbn [app process_entries].
    destruct (apply_rules c rs log_entry tick) as [pattern_alerts tick1].
    destruct (BehavioralAnalyzer.analyze_session _ _ _ _ _) as [[[behavioral|x] ba'] tick2];
      [|reflexivity].
    rewrite IH.
    destruct (process_entries c rs ba' logs1 tick2) as [[[[u|x] alerts1] ba1] tick3];
      [|reflexivity].
    destruct (process_entries c rs ba1 logs2 tick3) as [[[r alerts2] ba2] tick4].
    by rewrite !app_assoc.
Qed.
End Batch.

(** X12.  A record that the analyzer raises on ends the batch where it
    stands: the alerts of the records before it and its own pattern alerts
    are returned, and the records after it are not looked at, whatever they
    are. *)
Theorem process_entries_stops_at_raise `{PyRuntime}
    (c : clock) (rs : list AlertRule.t) (ba ba1 ba2 : BehavioralAnalyzer.t)
    (before after : list pydict) (bad : pydict)
    (tick tick1 tick2 : nat) (alerts1 : list Alert.t) (x : exn) :
  SecurityAlertEngine.process_entries c rs ba before tick = (Ret tt, alerts1, ba1, tick1) ->
  BehavioralAnalyzer.analyze_session c ba1 (dict_get bad "session_id" (PStr "unknown")) bad
      (snd (SecurityAlertEngine.apply_rules c rs bad tick1))
    = (Raise x, ba2, tick2) ->
  SecurityAlertEngine.process_entries c rs ba (before ++ bad :: after) tick
  = (Raise x, alerts1 ++ fst (SecurityAlertEngine.apply_rules c rs bad tick1), ba2, tick2).
Proof.
  intros Hbefore Hbad. rewrite process_entries_app, Hbefore.
  cbn [SecurityAlertEngine.process_entries].
  destruct (SecurityAlertEngine.apply_rules c rs bad tick1) as [pattern_alerts tick'].
  simpl in Hbad. by rewrite Hbad.
Qed.

Lemma process_entries_stops_at_raise_witness :
  exists alerts1 ba1 ba2,
    SecurityAlertEngine.process_entries (H := IsoRuntime.runtime) SampleCycle.clock_10h
        [SampleCycle.any_event] (BehavioralAnalyzer.mk ∅)
        ([SampleBatch.matching] ++ SampleBatch.choking :: [SampleBatch.matching]) 0
    = (Raise AttributeError,
       alerts1 ++ fst (SecurityAlertEngine.apply_rules (H := IsoRuntime.runtime)
                         SampleCycle.clock_10h [SampleCycle.any_event]
                         SampleBatch.choking 0),
       ba2, 0%nat) /\
    SecurityAlertEngine.process_entries (H := IsoRuntime.runtime) SampleCycle.clock_10h
        [SampleCycle.any_event] (BehavioralAnalyzer.mk ∅) [SampleBatch.matching] 0
    = (Ret tt, alerts1, ba1, 0%nat) /\
    length alerts1 = 1%nat.
Proof.
  assert (Hbefore : exists alerts1 ba1,
             SecurityAlertEngine.process_entries (H := IsoRuntime.runtime)
                 SampleCycle.clock_10h [SampleCycle.any_event] (BehavioralAnalyzer.mk ∅)
                 [SampleBatch.matching] 0
             = (Ret tt, alerts1, ba1, 0%nat) /\ length alerts1 = 1%nat)
    by (eexists; eexists; split; vm_compute; reflexivity).
  destruct Hbefore as (alerts1 & ba1 & Hbefore & Hlen).
  assert (Hbad : exists ba2,
             BehavioralAnalyzer.analyze_session (H := IsoRuntime.runtime)
                 SampleCycle.clock_10h ba1
                 (dict_get SampleBatch.choking "session_id" (PStr "unknown"))
                 SampleBatch.choking
                 (snd (SecurityAlertEngine.apply_rules (H := IsoRuntime.runtime)
                         SampleCycle.clock_10h [SampleCycle.any_event]
                         SampleBatch.choking 0))
             = (Raise AttributeError, ba2, 0%nat)).
  { injection Hbefore as _ <-. eexists. vm_compute. reflexivity. }
  destruct Hbad as (ba2 & Hbad).
  exists alerts1, ba1, ba2. split; [|by split].
  exact (process_entries_stops_at_raise (H := IsoRuntime.runtime) _ _ _ _ _ _ _ _ _ _ _ _ _
           Hbefore Hbad).
Defined.

(** ** Counting what was sent; the breaker that stays open *)

Section Delivery.
Context `{PyRuntime}.
Import SecurityAlertEngine.

Lemma deliver_counts_passed w n dd alerts i sent count flags :
  fst (decisions dd alerts) = map Ret flags ->
  let passed := Z.of_nat (length (List.filter (fun b : bool => b) flags)) in
  exists evs,
    deliver w (Some n) dd alerts i sent count
    = (Ret tt, snd (decisions dd alerts), sent + passed, count + passed, evs).
Proof.
  revert dd i sent count flags.
  induction alerts as [|a alerts IH]; intros dd i sent count flags Hflags.
  { destruct flags; [|discriminate Hflags]. simpl. exists [].
    by rewrite !Z.add_0_r. }
  cbn [decisions] in *. cbn [deliver].
  destruct (AlertDeduplicator.should_alert dd a) as [r d1].
  specialize (IH d1).
  destruct (decisions d1 alerts) as [rs d2]. cbn [fst snd] in *.
  destruct flags as [|b flags]; [discriminate Hflags|].
  injection Hflags as -> Hrs.
  destruct b.
  - destruct (NotificationDispatcher.send_alert n a (delivery w i)) as [ok sent_evs].
    cbn [snd].
    destruct (IH (S i) (sent + 1) (count + 1) flags Hrs) as [evs Hrest].
    rewrite Hrest. eexists. cbn [List.filter length].
    rewrite Nat2Z.inj_succ.
    replace (sent + 1 + Z.of_nat (length (List.filter (fun b : bool => b) flags)))
      with (sent + Z.succ (Z.of_nat (length (List.filter (fun b : bool => b) flags))))
      by lia.
    replace (count + 1 + Z.of_nat (length (List.filter (fun b : bool => b) flags)))
      with (count + Z.succ (Z.of_nat (length (List.filter (fun b : bool => b) flags))))
      by lia.
    reflexivity.
  - destruct (IH (S i) sent count flags Hrs) as [evs Hrest].
    rewrite Hrest. eexists. reflexivity.
Qed.
End Delivery.

(** X13.  With a dispatcher, the engine counts as sent every alert that the
    deduplicator lets through, whatever [send_alert] answers: when no call
    of [should_alert] raises, the loop ends normally and [sent_alerts] and
    [alert_count] have both grown by the number of alerts let through, also
    when no handler delivered any of them. *)
Theorem alert_count_counts_passed_alerts `{PyRuntime}
    (w : SecurityAlertEngine.world) (n : NotificationDispatcher.t)
    (dd : AlertDeduplicator.t) (alerts : list Alert.t) (flags : list bool)
    (sent count : Z) :
  fst (decisions dd alerts) = map Ret flags ->
  let passed := Z.of_nat (length (List.filter (fun b : bool => b) flags)) in
  exists evs,
    SecurityAlertEngine.deliver w (Some n) dd alerts 0 sent count
    = (Ret tt, snd (decisions dd alerts), sent + passed, count + passed, evs).
Proof. intros Hflags. by apply deliver_counts_passed. Qed.

Lemma alert_count_counts_passed_alerts_witness :
  exists evs,
    SecurityAlertEngine.deliver (H := IsoRuntime.runtime) SampleBatch.deaf_world
      (Some SampleCycle.dispatcher) Sample.dedup (map Sample.alert_at Sample.in_order) 0 0 0
    = (Ret tt,
       snd (decisions (H := IsoRuntime.runtime) Sample.dedup
              (map Sample.alert_at Sample.in_order)),
       0 + Z.of_nat (length (List.filter (fun b : bool => b)
                                         [true; true; true; false; true])),
       0 + Z.of_nat (length (List.filter (fun b : bool => b)
                                         [true; true; true; false; true])),
       evs).
Proof.
  apply (alert_count_counts_passed_alerts (H := IsoRuntime.runtime) SampleBatch.deaf_world
           SampleCycle.dispatcher Sample.dedup (map Sample.alert_at Sample.in_order)
           [true; true; true; false; true] 0 0).
  vm_compute. reflexivity.
Defined.

(** In the world of the sample no handler delivers, [send_alert] answers
    false, and the four alerts let through are counted as sent. *)
Example counted_though_undelivered :
  fst (NotificationDispatcher.send_alert (H := IsoRuntime.runtime) SampleCycle.dispatcher
         (Sample.alert_at "2024-01-01T10:00:00") SampleBatch.nothing_delivered) = false /\
  (let '(_, _, sent, count, _) :=
     SecurityAlertEngine.deliver (H := IsoRuntime.runtime) SampleBatch.deaf_world
       (Some SampleCycle.dispatcher) Sample.dedup
       (map Sample.alert_at Sample.in_order) 0 0 0 in
   (sent, count)) = (4, 4).
Proof. split; vm_compute; reflexivity. Qed.

Section Breaker.
Context `{PyRuntime}.
Import SecurityAlertEngine.

Lemma run_once_at_ceiling w e tick :
  default 5 (max_consecutive_errors e) <= error_count e ->
  exists evs, run_once w e tick = (Ret 1, e, tick, evs).
Proof.
  intros Hceiling.
  assert (Hbad : fst (check_health w e) = false)
    by (apply check_health_false; by right).
  unfold run_once. destruct (check_health w e) as [healthy evs]. simpl in Hbad.
  subst healthy. simpl. by eexists.
Qed.
End Breaker.

(** X14.  The breaker never closes by itself: once the error count has
    reached the ceiling, every later cycle returns 1 and leaves the engine
    as it is, error count included, whatever the log source does, so no
    cycle polls again. *)
Theorem breaker_stays_open `{PyRuntime}
    (ws : list SecurityAlertEngine.world) (e : SecurityAlertEngine.t) (tick : nat) :
  default 5 (SecurityAlertEngine.max_consecutive_errors e)
    <= SecurityAlertEngine.error_count e ->
  cycles ws e tick = (map (fun _ => Ret 1) ws, e, tick).
Proof.
  intros Hceiling. induction ws as [|w ws IH]; [reflexivity|].
  cbn [cycles map].
  destruct (run_once_at_ceiling w e tick Hceiling) as [evs Hrun].
  by rewrite Hrun, IH.
Qed.

Lemma breaker_stays_open_witness :
  cycles (H := IsoRuntime.runtime)
    [SampleCycle.quiet; SampleCycle.one_malformed; SampleCycle.quiet]
    SampleCycle.engine_at_ceiling 0
  = (map (fun _ => Ret 1) [SampleCycle.quiet; SampleCycle.one_malformed; SampleCycle.quiet],
     SampleCycle.engine_at_ceiling, 0%nat).
Proof.
  apply (breaker_stays_open (H := IsoRuntime.runtime)
           [SampleCycle.quiet; SampleCycle.one_malformed; SampleCycle.quiet]
           SampleCycle.engine_at_ceiling 0).
  simpl. lia.
Defined.

(** ** The shape of an alert id *)

Lemma substring_length (n : nat) (s : string) :
  (n <= String.length s)%nat -> String.length (String.substring 0 n s) = n.
Proof.
  revert s. induction n as [|n IH]; intros s Hn.
  - by destruct s.
  - destruct s as [|c s]; simpl in *; [lia|]. rewrite IH; [reflexivity|lia].
Qed.

Lemma substring_forall (f : ascii -> bool) (n : nat) (s : string) :
  forallb f (list_ascii_of_string s) = true ->
  forallb f (list_ascii_of_string (String.substring 0 n s)) = true.
Proof.
  revert s. induction n as [|n IH]; intros s Hs.
  - by destruct s.
  - destruct s as [|c s]; simpl in *; [reflexivity|].
    apply andb_true_iff in Hs as [Hc Hs]. by rewrite Hc, IH.
Qed.

Lemma hex_length (bs : list Z) : String.length (Md5.hex bs) = (2 * length bs)%nat.
Proof. induction bs as [|b bs IH]; simpl; [reflexivity|]. rewrite IH. lia. Qed.

Lemma hex_digit_is_hex (n : Z) : 0 <= n < 16 -> is_hex (Md5.hex_digit n) = true.
Proof.
  intros Hn. unfold Md5.hex_digit.
  assert (Hk : (Z.to_nat n < 16)%nat) by lia.
  destruct (Z.to_nat n) as [|k]; [reflexivity|].
  do 15 (destruct k as [|k]; [reflexivity|]). lia.
Qed.

Lemma hex_is_hex (bs : list Z) :
  Forall (fun b => 0 <= b < 256) bs ->
  forallb is_hex (list_ascii_of_string (Md5.hex bs)) = true.
Proof.
  induction 1 as [|b bs Hb _ IH]; [reflexivity|].
  cbn [Md5.hex list_ascii_of_string forallb].
  rewrite IH, !hex_digit_is_hex; [reflexivity| |].
  - apply Z.mod_pos_bound. lia.
  - split; [apply Z.div_pos; lia|apply Z.div_lt_upper_bound; lia].
Qed.

Lemma le_bytes_bytes (n : nat) (x : Z) :
  length (Md5.le_bytes n x) = n /\ Forall (fun b => 0 <= b < 256) (Md5.le_bytes n x).
Proof.
  revert x. induction n as [|n IH]; intros x; [by split; [|constructor]|].
  cbn [Md5.le_bytes]. destruct (IH (Z.shiftr x 8)) as [Hlen Hall].
  split; [simpl; by rewrite Hlen|]. constructor; [|exact Hall].
  change 255 with (Z.ones 8). rewrite Z.land_ones by lia.
  apply Z.mod_pos_bound. lia.
Qed.

Lemma digest_bytes (msg : list Z) :
  length (Md5.digest msg) = 16%nat /\ Forall (fun b => 0 <= b < 256) (Md5.digest msg).
Proof.
  unfold Md5.digest.
  destruct (Md5.blocks _ _ _) as [[[a b] c] d].
  destruct (le_bytes_bytes 4 a) as [Ha1 Ha2], (le_bytes_bytes 4 b) as [Hb1 Hb2],
           (le_bytes_bytes 4 c) as [Hc1 Hc2], (le_bytes_bytes 4 d) as [Hd1 Hd2].
  split.
  - rewrite !length_app. lia.
  - repeat (apply Forall_app; split); assumption.
Qed.

(** X15.  An alert id, of a pattern alert or of a behavioural alert, is
    always 12 characters long, each of them a lower-case hexadecimal
    digit, whatever the rule, the session and the record. *)
Theorem alert_id_is_12_hex_digits `{PyRuntime}
    (rule_name rule_type : string) (log_entry : pydict) (session_id : pyval) (now : Z) :
  let shaped (id : string) :=
    String.length id = 12%nat /\ forallb is_hex (list_ascii_of_string id) = true in
  shaped (SecurityAlertEngine._generate_alert_id rule_name log_entry) /\
  shaped (BehavioralAnalyzer._generate_alert_id rule_type session_id now).
Proof.
  assert (Hshape : forall content,
            String.length (String.substring 0 12 (Md5.hexdigest content)) = 12%nat /\
            forallb is_hex
              (list_ascii_of_string (String.substring 0 12 (Md5.hexdigest content)))
            = true).
  { intros content. unfold Md5.hexdigest.
    destruct (digest_bytes (Md5.bytes_of_string content)) as [Hlen Hall].
    split.
    - apply substring_length. rewrite hex_length, Hlen. lia.
    - apply substring_forall. by apply hex_is_hex. }
  split; apply Hshape.
Qed.

(** ** The channels at their edges *)

(** X16.  The console never prints an alert whose severity is none of
    CRITICAL, HIGH, MEDIUM and LOW in capitals, whatever its minimum
    severity: the alert counts as level 0, below every minimum, and [send]
    returns true with nothing printed. *)
Theorem console_ignores_unknown_severity `{PyRuntime}
    (n : ConsoleNotifier.t) (alert : Alert.t) (io : delivery_io) :
  ConsoleNotifier.severity_levels (Alert.severity alert) = None ->
  ConsoleNotifier.should_notify n (Alert.severity alert) = false /\
  ConsoleNotifier.send n alert io = (Ret true, []).
Proof.
  intros Hunknown.
  assert (Hquiet : ConsoleNotifier.should_notify n (Alert.severity alert) = false).
  { unfold ConsoleNotifier.should_notify. rewrite Hunknown.
    destruct (ConsoleNotifier.enabled n); [|reflexivity]. simpl.
    unfold ConsoleNotifier.severity_levels.
    repeat (destruct (String.eqb (ConsoleNotifier.min_severity n) _); [reflexivity|]).
    reflexivity. }
  split; [exact Hquiet|].
  unfold ConsoleNotifier.send. by rewrite Hquiet.
Qed.

Lemma console_ignores_unknown_severity_witness :
  let n := ConsoleNotifier.init (ConsoleNotifier.mk_config None (Some "LOW") None None) in
  let alert := Alert.mk "0123456789ab" "r" "high" "d" "c" (PStr "2024-01-01T10:00:00")
                        (PStr "s1") [] [] 0 in
  ConsoleNotifier.should_notify n (Alert.severity alert) = false /\
  ConsoleNotifier.send (H := IsoRuntime.runtime) n alert SampleBatch.nothing_delivered
  = (Ret true, []).
Proof.
  intros n alert.
  apply (console_ignores_unknown_severity (H := IsoRuntime.runtime) n alert
           SampleBatch.nothing_delivered).
  reflexivity.
Defined.

Section FixedOrder.
Context `{PyRuntime}.
Import NotificationDispatcher.

Lemma init_channels (c : config) :
  map channel_of (handlers (init c))
  = List.filter (has_section c) [Console; LogFile; Email; Webhook; Grafana].
Proof.
  destruct c as [[?|] [?|] [?|] [?|] [?|]]; reflexivity.
Qed.
End FixedOrder.

(** X17.  The dispatcher built from a configuration calls the handlers of
    the sections that are there in the order console, log file, email,
    webhook, Grafana, each once, for every alert and whatever the handlers
    do. *)
Theorem dispatcher_calls_in_fixed_order `{PyRuntime}
    (c : NotificationDispatcher.config) (alert : Alert.t) (io : delivery_io) :
  called (snd (NotificationDispatcher.send_alert (NotificationDispatcher.init c) alert io))
  = List.filter (has_section c) [Console; LogFile; Email; Webhook; Grafana].
Proof.
  rewrite <- init_channels.
  unfold NotificationDispatcher.send_alert.
  destruct (send_each_spec (NotificationDispatcher.handlers (NotificationDispatcher.init c))
              alert io 0) as [_ Hcalled].
  destruct (NotificationDispatcher.send_each _ alert io 0) as [n evs]. simpl in *.
  rewrite called_app, Hcalled.
  destruct (0 <? n)%nat; simpl; [|by rewrite app_nil_r].
  destruct (n <? _)%nat; simpl; by rewrite app_nil_r.
Qed.



(** X19.  A recipient list under the alert's own severity shadows the
    [default] list, also when it is empty: then nobody is mailed, the
    [default] recipients included, and [send] returns true without
    touching the mail server. *)
Theorem email_empty_list_shadows_default `{PyRuntime}
    (n : EmailNotifier.t) (alert : Alert.t) (io : delivery_io) :
  EmailNotifier.lookup (EmailNotifier.recipients n) (Alert.severity alert) = Some [] ->
  EmailNotifier._get_recipients n (Alert.severity alert) = [] /\
  EmailNotifier.send n alert io = (Ret true, []).
Proof.
  intros Hown.
  assert (Hrecipients : EmailNotifier._get_recipients n (Alert.severity alert) = [])
    by (unfold EmailNotifier._get_recipients; by rewrite Hown).
  split; [exact Hrecipients|].
  unfold EmailNotifier.send. rewrite Hrecipients.
  by destruct (EmailNotifier.enabled n).
Qed.

Lemma email_empty_list_shadows_default_witness :
  let n := EmailNotifier.init
             (EmailNotifier.mk_config (Some true)
                (Some [("default", ["soc@example.org"]); ("HIGH", [])])) in
  let alert := Sample.alert_at "2024-01-01T10:00:00" in
  EmailNotifier.lookup (EmailNotifier.recipients n) "default" = Some ["soc@example.org"] /\
  EmailNotifier._get_recipients n (Alert.severity alert) = [] /\
  EmailNotifier.send (H := IsoRuntime.runtime) n alert (SampleWebhook.answering [])
  = (Ret true, []).
Proof.
  intros n alert. split; [reflexivity|].
  apply (email_empty_list_shadows_default (H := IsoRuntime.runtime) n alert
           (SampleWebhook.answering [])).
  reflexivity.
Defined.



(** ** Loading the rules *)

Section Loading.
Variable re_compile : string -> option (pydict -> bool).

Lemma load_rule_loadable (rule_name : string) (c : RuleLoader.rule_config) :
  match RuleLoader.load_rule re_compile rule_name c with
  | Some rule =>
      loadable re_compile (rule_name, c) = true /\
      AlertRule.name rule = rule_name /\
      AlertRule.enabled rule = true /\
      AlertRule.severity rule = default "MEDIUM" (RuleLoader.cfg_severity c) /\
      AlertRule.compiled_pattern rule
      = match RuleLoader.cfg_pattern c with
        | Some (String a p) => re_compile (String a p)
        | _ => None
        end
  | None => loadable re_compile (rule_name, c) = false
  end.
Proof.
  unfold RuleLoader.load_rule, loadable. cbn [fst snd].
  destruct (default true (RuleLoader.cfg_enabled c)) eqn:Hen; [|reflexivity].
  cbn [negb andb].
  destruct (RuleLoader.cfg_pattern c) as [[|a p]|]; cbn [RuleLoader.has_pattern default].
  - by repeat split.
  - cbn [from_option id]. unfold id.
    destruct (re_compile (String a p)) as [search|] eqn:Hre.
    + cbn [AlertRule.name AlertRule.enabled AlertRule.severity AlertRule.compiled_pattern].
      split; [by apply bool_decide_eq_true_2|]. by repeat split.
    + apply bool_decide_eq_false_2. by intros [? ?].
  - by repeat split.
Qed.

Lemma load_rules_cons (entry : string * RuleLoader.rule_config)
    (rules_config : list (string * RuleLoader.rule_config)) :
  RuleLoader._load_rules re_compile (entry :: rules_config)
  = option_list (RuleLoader.load_rule re_compile (fst entry) (snd entry))
    ++ RuleLoader._load_rules re_compile rules_config.
Proof.
  unfold RuleLoader._load_rules. cbn [omap list_omap].
  by destruct (RuleLoader.load_rule re_compile (fst entry) (snd entry)).
Qed.
End Loading.

(** X21.  [_load_rules] keeps, in the order of the configuration, the
    entries that are not disabled and whose pattern, if any, compiles: an
    entry with a pattern that is no regular expression is dropped, alone.
    Each rule has the name of its entry, is enabled, has the severity of
    the entry or MEDIUM, and has no compiled pattern exactly when its
    entry has no pattern or the empty one. *)
Theorem load_rules_keeps_loadable_entries
    (re_compile : string -> option (pydict -> bool))
    (rules_config : list (string * RuleLoader.rule_config)) :
  Forall2 (fun rule entry =>
             AlertRule.name rule = fst entry /\
             AlertRule.enabled rule = true /\
             AlertRule.severity rule
             = default "MEDIUM" (RuleLoader.cfg_severity (snd entry)) /\
             (AlertRule.compiled_pattern rule = None <->
              RuleLoader.has_pattern (RuleLoader.cfg_pattern (snd entry)) = false))
          (RuleLoader._load_rules re_compile rules_config)
          (List.filter (loadable re_compile) rules_config).
Proof.
  induction rules_config as [|[rule_name c] rules_config IH]; [constructor|].
  rewrite load_rules_cons. cbn [List.filter fst snd].
  pose proof (load_rule_loadable re_compile rule_name c) as Hrule.
  destruct (RuleLoader.load_rule re_compile rule_name c) as [rule|].
  - destruct Hrule as (Hload & Hname & Hen & Hsev & Hpat). rewrite Hload.
    cbn [option_list app]. constructor; [|exact IH].
    cbn [fst snd]. repeat split; try assumption.
    + rewrite Hpat. unfold loadable in Hload. cbn [snd] in Hload.
      apply andb_true_iff in Hload as [_ Hload].
      destruct (RuleLoader.cfg_pattern c) as [[|a p]|]; try reflexivity.
      intros Hnone. rewrite Hnone in Hload.
      apply bool_decide_eq_true_1 in Hload. by destruct Hload.
    + rewrite Hpat. by destruct (RuleLoader.cfg_pattern c) as [[|a p]|].
  - rewrite Hrule. exact IH.
Qed.

Section LoadedRules.
Context `{PyRuntime}.

Lemma apply_rules_names (clk : clock) (rs : list AlertRule.t) (log_entry : pydict)
    (tick : nat) :
  map Alert.rule_name (fst (SecurityAlertEngine.apply_rules clk rs log_entry tick))
  = map AlertRule.name (List.filter (matches log_entry) rs).
Proof.
  revert tick. induction rs as [|rule rs IH]; intros tick; [reflexivity|].
  cbn [SecurityAlertEngine.apply_rules List.filter].
  pose proof (check_pattern_rule_fields clk rule log_entry tick) as Hrule.
  assert (Hfound :
    (match AlertRule.compiled_pattern rule with
     | Some _ => SecurityAlertEngine._check_pattern_rule clk rule log_entry tick
     | None => (None, tick)
     end) = SecurityAlertEngine._check_pattern_rule clk rule log_entry tick).
  { unfold SecurityAlertEngine._check_pattern_rule.
    by destruct (AlertRule.compiled_pattern rule). }
  rewrite Hfound.
  destruct (SecurityAlertEngine._check_pattern_rule clk rule log_entry tick)
    as [[a|] tick1]; simpl in Hrule.
  - destruct Hrule as (Hm & Hname & _). rewrite Hm.
    specialize (IH tick1).
    destruct (SecurityAlertEngine.apply_rules clk rs log_entry tick1) as [more tick2].
    simpl in *. by rewrite Hname, IH.
  - rewrite Hrule. specialize (IH tick1).
    destruct (SecurityAlertEngine.apply_rules clk rs log_entry tick1) as [more tick2].
    exact IH.
Qed.

Lemma loaded_rules_matching (re_compile : string -> option (pydict -> bool))
    (rules_config : list (string * RuleLoader.rule_config)) (log_entry : pydict) :
  map AlertRule.name
      (List.filter (matches log_entry) (RuleLoader._load_rules re_compile rules_config))
  = map fst (List.filter (fires re_compile log_entry) rules_config).
Proof.
  induction rules_config as [|[rule_name c] rules_config IH]; [reflexivity|].
  rewrite load_rules_cons. cbn [List.filter fst snd].
  pose proof (load_rule_loadable re_compile rule_name c) as Hrule.
  unfold fires at 1. cbn [snd]. unfold loadable in Hrule. cbn [snd] in Hrule.
  destruct (RuleLoader.load_rule re_compile rule_name c) as [rule|].
  - destruct Hrule as (Hload & Hname & _ & _ & Hpat).
    apply andb_true_iff in Hload as [Hen Hload]. rewrite Hen. cbn [andb option_list app].
    assert (Hm : matches log_entry rule
                 = match RuleLoader.cfg_pattern c with
                   | Some (String a p) =>
                       match re_compile (String a p) with
                       | Some search => search log_entry
                       | None => false
                       end
                   | _ => false
                   end).
    { unfold matches. rewrite Hpat.
      by destruct (RuleLoader.cfg_pattern c) as [[|a p]|]. }
    change (option_list (Some rule)) with [rule]. cbn [app List.filter]. rewrite Hm.
    destruct (match RuleLoader.cfg_pattern c with
              | Some (String a p) => _
              | _ => false
              end); [|exact IH].
    cbn [map fst]. by rewrite Hname, IH.
  - change (option_list (@None AlertRule.t)) with (@nil AlertRule.t). cbn [app].
    destruct (default true (RuleLoader.cfg_enabled c)); [|exact IH].
    cbn [andb] in *.
    destruct (RuleLoader.cfg_pattern c) as [[|a p]|]; try discriminate Hrule.
    apply bool_decide_eq_false_1 in Hrule.
    destruct (re_compile (String a p)) as [search|]; [|exact IH].
    exfalso. apply Hrule. by eexists.
Qed.
End LoadedRules.

(** X22.  Loading and matching together: the alerts that the loaded rules
    raise on a record are those of the entries that are not disabled and
    have a pattern that compiles and is found in the record, in the order
    of the configuration.  An entry without pattern is loaded and never
    raises an alert. *)
Theorem loaded_rules_fire_on_match `{PyRuntime}
    (re_compile : string -> option (pydict -> bool))
    (rules_config : list (string * RuleLoader.rule_config))
    (clk : clock) (log_entry : pydict) (tick : nat) :
  map Alert.rule_name
      (fst (SecurityAlertEngine.apply_rules clk
              (RuleLoader._load_rules re_compile rules_config) log_entry tick))
  = map fst (List.filter (fires re_compile log_entry) rules_config).
Proof. by rewrite apply_rules_names, loaded_rules_matching. Qed.

(** The sample: three of five entries are loaded, one of them fires. *)
Example sample_rules_loaded :
  map AlertRule.name (RuleLoader._load_rules SampleRules.compile SampleRules.rules_config)
  = ["destructive"; "threshold_only"; "credentials"] /\
  map Alert.rule_name
      (fst (SecurityAlertEngine.apply_rules (H := IsoRuntime.runtime) SampleCycle.clock_10h
              (RuleLoader._load_rules SampleRules.compile SampleRules.rules_config)
              SampleBatch.matching 0))
  = ["destructive"].
Proof. split; vm_compute; reflexivity. Qed.

(** ** The log file and its backups *)

Lemma shift_one_lookup (i : Z) (b : gmap Z (list string)) (j : Z) :
  LogFiles.shift_one i b !! j
  = match b !! i with
    | Some lines =>
        if decide (i + 1 = j) then Some lines else if decide (i = j) then None else b !! j
    | None => b !! j
    end.
Proof.
  unfold LogFiles.shift_one. destruct (b !! i); [|reflexivity].
  rewrite lookup_insert. case_decide; [reflexivity|].
  by rewrite lookup_delete.
Qed.

Lemma shift_lookup (n : nat) (b : gmap Z (list string)) (j : Z) :
  LogFiles.shift n b !! j
  = if decide (2 <= j <= Z.of_nat n + 1) then
      match b !! (j - 1) with
      | Some lines => Some lines
      | None => if decide (j = Z.of_nat n + 1) then b !! j else None
      end
    else if decide (j = 1 /\ (1 <= n)%nat) then None
    else b !! j.
Proof.
  revert b. induction n as [|n IH]; intros b.
  { simpl. repeat case_decide; try lia; reflexivity. }
  cbn [LogFiles.shift]. rewrite IH, !shift_one_lookup.
  assert (Hcases : j = Z.of_nat (S n) + 2 \/ j = Z.of_nat (S n) + 1 \/ j = Z.of_nat (S n) \/
                   (j <> Z.of_nat (S n) + 2 /\ j <> Z.of_nat (S n) + 1 /\ j <> Z.of_nat (S n)))
    by lia.
  destruct Hcases as [-> | [-> | [-> | (H2 & H1 & H0)]]].
  - replace (Z.of_nat (S n) + 2 - 1) with (Z.of_nat (S n) + 1) by lia.
    destruct (b !! Z.of_nat (S n)); repeat case_decide; try lia; reflexivity.
  - replace (Z.of_nat (S n) + 1 - 1) with (Z.of_nat (S n)) by lia.
    destruct (b !! Z.of_nat (S n)); repeat case_decide; try lia; reflexivity.
  - destruct (b !! Z.of_nat (S n)); repeat case_decide; try lia; try reflexivity.
    all: destruct (b !! (Z.of_nat (S n) - 1)); try reflexivity.
  - destruct (b !! Z.of_nat (S n)); repeat case_decide; try lia; try reflexivity.
Qed.

Lemma rotate_over_limit (r : LogFiles.rotation) (fs : LogFiles.t) (lines : list string) :
  LogFiles.current fs = Some lines ->
  LogFiles.under_limit r lines = false ->
  LogFiles._rotate_if_needed r fs
  = LogFiles.mk None
      (<[1 := lines]> (LogFiles.shift (Z.to_nat (default 5 (LogFiles.cfg_keep_files r) - 1))
                                      (LogFiles.backups fs))).
Proof. intros Hcur Hover. unfold LogFiles._rotate_if_needed. by rewrite Hcur, Hover. Qed.

(** X23.  A write that finds the log at or over the size limit rotates
    first: afterwards the log holds the new line alone, backup 1 is the
    old log, every backup [i] below [keep_files] has become backup
    [i + 1], replacing what was there, and the files numbered below 1 or
    above [keep_files] are as they were. *)
Theorem rotation_shifts_backups
    (r : LogFiles.rotation) (fs : LogFiles.t) (lines : list string) (log_line : string) :
  LogFiles.current fs = Some lines ->
  LogFiles.under_limit r lines = false ->
  let keep_files := default 5 (LogFiles.cfg_keep_files r) in
  let fs' := snd (LogFiles.send true r log_line fs) in
  LogFiles.current fs' = Some [log_line] /\
  LogFiles.backups fs' !! 1 = Some lines /\
  (forall (i : Z) (old : list string),
     1 <= i < keep_files -> LogFiles.backups fs !! i = Some old ->
     LogFiles.backups fs' !! (i + 1) = Some old) /\
  (forall i : Z, i < 1 \/ Z.max 1 keep_files < i ->
     LogFiles.backups fs' !! i = LogFiles.backups fs !! i).
Proof.
  intros Hcur Hover keep_files fs'. subst fs'.
  unfold LogFiles.send, LogFiles.append. cbn [negb snd].
  rewrite (rotate_over_limit r fs lines Hcur Hover).
  cbn [LogFiles.current LogFiles.backups default]. fold keep_files.
  split; [reflexivity|]. split; [by rewrite lookup_insert_eq|]. split.
  - intros i old Hi Hold.
    rewrite lookup_insert_ne by lia. rewrite shift_lookup.
    replace (i + 1 - 1) with i by lia. rewrite Hold.
    case_decide; [reflexivity|lia].
  - intros i Hi.
    rewrite lookup_insert_ne by lia. rewrite shift_lookup.
    repeat case_decide; try lia; reflexivity.
Qed.

Lemma rotation_shifts_backups_witness :
  let fs' := snd (LogFiles.send true SampleFiles.always "alert 9" SampleFiles.full) in
  LogFiles.current fs' = Some ["alert 9"] /\
  LogFiles.backups fs' !! 1 = Some ["alert 7"; "alert 8"] /\
  (forall (i : Z) (old : list string),
     1 <= i < 3 -> LogFiles.backups SampleFiles.full !! i = Some old ->
     LogFiles.backups fs' !! (i + 1) = Some old) /\
  (forall i : Z, i < 1 \/ Z.max 1 3 < i ->
     LogFiles.backups fs' !! i = LogFiles.backups SampleFiles.full !! i).
Proof.
  apply (rotation_shifts_backups SampleFiles.always SampleFiles.full
           ["alert 7"; "alert 8"] "alert 9").
  - reflexivity.
  - vm_compute. reflexivity.
Defined.

(** In the sample the two entries of the oldest backup are gone. *)
Example oldest_backup_is_dropped :
  let fs' := snd (LogFiles.send true SampleFiles.always "alert 9" SampleFiles.full) in
  map (fun i => LogFiles.backups fs' !! i) [1; 2; 3; 4]
  = [Some ["alert 7"; "alert 8"]; Some ["alert 5"; "alert 6"];
     Some ["alert 3"; "alert 4"]; None].
Proof. vm_compute. reflexivity. Qed.

Lemma send_keeps_numbering (enabled : bool) (r : LogFiles.rotation) (log_line : string)
    (fs : LogFiles.t) :
  1 <= default 5 (LogFiles.cfg_keep_files r) ->
  numbered_within (default 5 (LogFiles.cfg_keep_files r)) (LogFiles.backups fs) ->
  numbered_within (default 5 (LogFiles.cfg_keep_files r))
                  (LogFiles.backups (snd (LogFiles.send enabled r log_line fs))).
Proof.
  intros Hkeep Hnum. unfold LogFiles.send.
  destruct enabled; cbn [negb snd]; [|exact Hnum].
  unfold LogFiles.append. cbn [LogFiles.backups].
  unfold LogFiles._rotate_if_needed.
  destruct (LogFiles.current fs) as [lines|]; [|exact Hnum].
  destruct (LogFiles.under_limit r lines); [exact Hnum|].
  cbn [LogFiles.backups]. intros i old.
  rewrite lookup_insert. case_decide; [intros _; lia|].
  rewrite shift_lookup. repeat case_decide; try lia; try discriminate.
  intros Hold. by apply (Hnum i old).
Qed.

(** X24.  With [keep_files] at least 1, writing never leaves more backups
    than [keep_files]: when the backups are numbered from 1 to [keep_files]
    they still are after any sequence of writes, rotating or not. *)
Theorem backups_stay_numbered (enabled : bool) (r : LogFiles.rotation)
    (log_lines : list string) (fs : LogFiles.t) :
  1 <= default 5 (LogFiles.cfg_keep_files r) ->
  numbered_within (default 5 (LogFiles.cfg_keep_files r)) (LogFiles.backups fs) ->
  numbered_within (default 5 (LogFiles.cfg_keep_files r))
    (LogFiles.backups
       (fold_left (fun fs log_line => snd (LogFiles.send enabled r log_line fs))
                  log_lines fs)).
Proof.
  intros Hkeep. revert fs. induction log_lines as [|log_line log_lines IH]; intros fs Hnum.
  - exact Hnum.
  - cbn [fold_left]. apply IH. by apply send_keeps_numbering.
Qed.

Lemma size_app (lines : list string) (log_line : string) :
  LogFiles.size (lines ++ [log_line])
  = LogFiles.size lines + Z.of_nat (String.length log_line) + 1.
Proof.
  induction lines as [|line lines IH]; simpl; [lia|].
  unfold LogFiles.size in *. simpl in *. lia.
Qed.

(** X25.  The size is tested before the line is written, so the log can
    pass the limit, by one line at most: with a limit that is not
    negative, after a write the log ends with the new line and is no
    larger than the limit plus that line and its newline. *)
Theorem log_file_exceeds_limit_by_a_line
    (r : LogFiles.rotation) (log_line : string) (fs : LogFiles.t) :
  0 <= default 100 (LogFiles.cfg_max_size_mb r) ->
  exists lines : list string,
    LogFiles.current (snd (LogFiles.send true r log_line fs)) = Some (lines ++ [log_line]) /\
    LogFiles.size (lines ++ [log_line])
    <= default 100 (LogFiles.cfg_max_size_mb r) * 1048576
       + Z.of_nat (String.length log_line) + 1.
Proof.
  intros Hlimit. unfold LogFiles.send, LogFiles.append. cbn [negb snd LogFiles.current].
  unfold LogFiles._rotate_if_needed.
  destruct (LogFiles.current fs) as [lines|] eqn:Hcur.
  - destruct (LogFiles.under_limit r lines) eqn:Hunder.
    + rewrite Hcur. exists lines. split; [reflexivity|].
      rewrite size_app. unfold LogFiles.under_limit in Hunder.
      apply Z.ltb_lt in Hunder. lia.
    + exists []. split; [reflexivity|]. rewrite size_app. simpl. lia.
  - rewrite Hcur. exists []. split; [reflexivity|]. rewrite size_app. simpl. lia.
Qed.

Lemma backups_stay_numbered_witness :
  numbered_within 3
    (LogFiles.backups
       (fold_left (fun fs log_line => snd (LogFiles.send true SampleFiles.always log_line fs))
                  ["alert 9"; "alert 10"; "alert 11"; "alert 12"] SampleFiles.full)).
Proof.
  apply (backups_stay_numbered true SampleFiles.always
           ["alert 9"; "alert 10"; "alert 11"; "alert 12"] SampleFiles.full).
  - simpl. lia.
  - intros i old. unfold SampleFiles.full. cbn [LogFiles.backups].
    rewrite !lookup_insert, lookup_empty.
    repeat case_decide; first [discriminate | intros _; simpl; lia].
Defined.

Lemma log_file_exceeds_limit_by_a_line_witness :
  exists lines : list string,
    LogFiles.current (snd (LogFiles.send true SampleFiles.always "alert 9" SampleFiles.full))
    = Some (lines ++ ["alert 9"]) /\
    LogFiles.size (lines ++ ["alert 9"]) <= 0 * 1048576 + 7 + 1.
Proof.
  apply (log_file_exceeds_limit_by_a_line SampleFiles.always "alert 9" SampleFiles.full).
  simpl. lia.
Defined.
